(** * EM122 [.all] reader: a shallow embedding of [read_em_122.py]

    The development follows [read_em122_wgs84]: the navigation preload, the
    [while r.moredata()] loop over the datagrams, the per-ping geocoding and
    the final flattening with [np.concatenate].

    The packages [pyall], [timeseries] and [geodetic] are imported by the
    script and are not part of it. The functions the script calls on values
    ([to_datetime], [to_timestamp], the interpolant, the geodetic primitive,
    [arctan2], [degrees]) are the fields of the class [Imports]; the reader
    object is modelled as a cursor over the decoded file. Floating point
    numbers are an abstract type [F]: the script never computes on them
    itself, it only hands them to those functions. *)

From Equations Require Import Equations.
From Equations.Prop Require Import Logic.
From Stdlib Require Import Ascii String.
From Stdlib Require Import List Arith ZArith Lia Bool.
Import ListNotations.

Set Implicit Arguments.

(** ** Exceptions and fallible computations *)

(** The two exceptions the script's own numpy and indexing operations can
    raise. *)
Inductive exn : Type :=
| ValueError   (* np.concatenate of no array; shapes that do not broadcast *)
| IndexError.  (* p_across[i], p_along[i] past the end *)

Inductive res (A : Type) : Type :=
| Ok (a : A)
| Raise (e : exn).
Arguments Ok {A} a.
Arguments Raise {A} e.

Definition bind {A B : Type} (m : res A) (k : A -> res B) : res B :=
  match m with
  | Ok a => k a
  | Raise e => Raise e
  end.

Declare Scope res_scope.
Delimit Scope res_scope with res.
Notation "x <- m ;; k" := (bind m (fun x => k))
  (at level 61, m at next level, right associativity) : res_scope.
Notation "' pat <- m ;; k" :=
  (bind m (fun x => match x with pat => k end))
  (at level 61, pat pattern, m at next level, right associativity) : res_scope.
Open Scope res_scope.

(** ** The numpy operations the script uses, on one-dimensional arrays *)

Module np.

(** [np.concatenate(seq)]: raises [ValueError] ("need at least one array
    to concatenate") on an empty sequence. *)
Definition concatenate {A : Type} (arrays : list (list A)) : res (list A) :=
  match arrays with
  | [] => Raise ValueError
  | _ :: _ => Ok (concat arrays)
  end.

(** [a[i]] for a non-negative index [i]. *)
Definition getitem {A : Type} (a : list A) (i : nat) : res A :=
  match nth_error a i with
  | Some x => Ok x
  | None => Raise IndexError
  end.

(** A binary ufunc on two 1-D arrays, with numpy's broadcasting: equal
    lengths go elementwise, a length-1 operand is stretched, anything
    else raises [ValueError]. *)
Definition ufunc2 {A : Type} (f : A -> A -> A) (x1 x2 : list A)
  : res (list A) :=
  if length x1 =? length x2 then Ok (map (fun p => f (fst p) (snd p)) (combine x1 x2))
  else match x1, x2 with
       | [a], _ => Ok (map (fun b => f a b) x2)
       | _, [b] => Ok (map (fun a => f a b) x1)
       | _, _ => Raise ValueError
       end.

(** [np.cumsum]: inclusive running sums. *)
Fixpoint cumsum_from (acc : nat) (a : list nat) : list nat :=
  match a with
  | [] => []
  | x :: rest => (acc + x) :: cumsum_from (acc + x) rest
  end.

Definition cumsum (a : list nat) : list nat := cumsum_from 0 a.

End np.

(** ** What the script imports *)

Class Imports : Type := {
  F : Type;                                   (* float64 *)
  datetime : Type;
  to_datetime : Z -> F -> datetime;           (* r.to_datetime(recorddate, time) *)
  to_timestamp : datetime -> F;               (* pyall.to_timestamp(dt) *)
  ctimeSeries : Type;
  ctimeSeries_init : list F -> list F -> ctimeSeries;
                                              (* timeseries.ctimeSeries(times, values) *)
  getValueAt : ctimeSeries -> F -> option F;  (* value, or None *)
  calculateGeographicalPositionFromBearingDxDy :
    F -> F -> F -> F -> F -> F * F;           (* (lon, lat, bearing, dx, dy) -> (lon, lat) *)
  arctan2 : F -> F -> F;                      (* np.arctan2 on scalars *)
  degrees : F -> F                            (* np.degrees on scalars *)
}.

Section Model.

Context {I : Imports}.

(** ** The decoded file, as the [pyall] reader presents it *)

(** The fields of an XYZ 88 depth datagram that the script reads after
    [datagram.read()]. The four per-beam lists are independent
    attributes, as in [pyall]. *)
Record X_DEPTH : Type := {
  recorddate : Z;
  time : F;
  heading : F;
  acrosstrackdistance : list F;
  alongtrackdistance : list F;
  depth : list F;
  reflectivity : list F
}.

(** What [r.readdatagram()] returns: the type letter and the datagram.
    [XYZ d] is a datagram of type ['X']; every other type letter is
    [NotXYZ]. *)
Inductive record : Type :=
| XYZ (d : X_DEPTH)
| NotXYZ (typeofdatagram : Ascii.ascii).

(** A position fix as [loadnavigation] lists it: [[timestamp, lat, lon]]. *)
Definition position : Type := (F * F * F)%type.

(** A file is what the reader yields from it: the navigation fixes of
    the first pass and the datagrams of the second. *)
Record allfile : Type := {
  fixes : list position;
  datagrams : list record
}.

Definition filesystem : Type := string -> option allfile.

(** Calls on the reader that the script makes, in order. *)
Inductive call : Type :=
| Loadnavigation | Rewind | Readdatagram | Close.

(** Modelled from the spec: the reader of [pyall], which the script only
    imports. It owns the file, a position in it and a released flag; the
    calls made on it are logged. *)
Record allreader : Type := {
  source : allfile;
  pending : list record;   (* datagrams from the file pointer on *)
  closed : bool;
  calls : list call        (* oldest first *)
}.

(** Modelled from the spec: [pyall.allreader(filename)], "open(path) ->
    Reader". *)
Definition allreader_open (f : allfile) : allreader :=
  {| source := f; pending := datagrams f; closed := false; calls := [] |}.

Definition logged (c : call) (r : allreader) : list call := calls r ++ [c].

(** Modelled from the spec: [r.loadnavigation()], "loadNavigationFixes()
    -> [PositionFix]"; pass 1 loads the full navigation stream. The file
    pointer is put back at the start, where the script rewinds anyway. *)
Definition loadnavigation (r : allreader) : list position * allreader :=
  (fixes (source r),
   {| source := source r; pending := datagrams (source r);
      closed := closed r; calls := logged Loadnavigation r |}).

(** Modelled from the spec: [r.rewind()], back to the start of the file. *)
Definition rewind (r : allreader) : allreader :=
  {| source := source r; pending := datagrams (source r);
     closed := closed r; calls := logged Rewind r |}.

(** Modelled from the spec: [r.moredata()], "hasMore() -> bool". *)
Definition moredata (r : allreader) : bool :=
  match pending r with
  | [] => false
  | _ :: _ => true
  end.

(** Modelled from the spec: [r.readdatagram()], "readNextRecord() ->
    (kind, payload)". Only called under [moredata]; at the end of the file
    there is nothing to decode. *)
Definition readdatagram (r : allreader) : option (record * allreader) :=
  match pending r with
  | [] => None
  | x :: rest =>
      Some (x, {| source := source r; pending := rest;
                  closed := closed r; calls := logged Readdatagram r |})
  end.

(** Modelled from the spec: [r.close()], the release of the handle. *)
Definition close (r : allreader) : allreader :=
  {| source := source r; pending := pending r;
     closed := true; calls := logged Close r |}.

(** ** The accumulators of the second pass (lines 54-61) *)

Record buffers : Type := {
  list_lat : list (list F);
  list_lon : list (list F);
  list_z : list (list F);
  list_bs : list (list F);
  list_ang : list (list F);
  list_beam_counts : list nat;
  list_ping_times : list F;
  ping_count : nat
}.

Definition no_buffers : buffers :=
  {| list_lat := []; list_lon := []; list_z := []; list_bs := [];
     list_ang := []; list_beam_counts := []; list_ping_times := [];
     ping_count := 0 |}.

Definition counted (b : buffers) : buffers :=
  {| list_lat := list_lat b; list_lon := list_lon b; list_z := list_z b;
     list_bs := list_bs b; list_ang := list_ang b;
     list_beam_counts := list_beam_counts b;
     list_ping_times := list_ping_times b;
     ping_count := S (ping_count b) |}.

(** ** One ping (lines 70-126) *)

(** Lines 104-115: [for i in range(len(p_z))], over the indices still to
    visit, appending to [current_ping_lats] and [current_ping_lons]. *)
Fixpoint beam_loop (ref_lon ref_lat hdg : F) (p_across p_along : list F)
    (indices : list nat) (current_ping_lats current_ping_lons : list F)
  : res (list F * list F) :=
  match indices with
  | [] => Ok (current_ping_lats, current_ping_lons)
  | i :: rest =>
      dx <- np.getitem p_across i ;;
      dy <- np.getitem p_along i ;;
      let '(b_lon, b_lat) :=
        calculateGeographicalPositionFromBearingDxDy ref_lon ref_lat hdg dx dy in
      beam_loop ref_lon ref_lat hdg p_across p_along rest
        (current_ping_lats ++ [b_lat]) (current_ping_lons ++ [b_lon])
  end.

(** The body of [if typeofdatagram == 'X']. [Ok] with the buffers
    untouched but for [ping_count] is the [continue] of line 84. *)
Definition process_ping (ts_lat ts_lon : ctimeSeries) (datagram : X_DEPTH)
    (b : buffers) : res buffers :=
  let b := counted b in
  let dt := to_datetime (recorddate datagram) (time datagram) in
  let ts := to_timestamp dt in
  match getValueAt ts_lat ts, getValueAt ts_lon ts with
  | Some ref_lat, Some ref_lon =>
      let p_across := acrosstrackdistance datagram in
      let p_along := alongtrackdistance datagram in
      let p_z := depth datagram in
      let p_bs := reflectivity datagram in
      p_ang <- (a <- np.ufunc2 arctan2 p_across p_z ;; Ok (map degrees a)) ;;
      '(current_ping_lats, current_ping_lons) <-
        beam_loop ref_lon ref_lat (heading datagram) p_across p_along
          (seq 0 (length p_z)) [] [] ;;
      Ok {| list_lat := list_lat b ++ [current_ping_lats];
            list_lon := list_lon b ++ [current_ping_lons];
            list_z := list_z b ++ [p_z];
            list_bs := list_bs b ++ [p_bs];
            list_ang := list_ang b ++ [p_ang];
            list_beam_counts := list_beam_counts b ++ [length p_z];
            list_ping_times := list_ping_times b ++ [ts];
            ping_count := ping_count b |}
  | _, _ => Ok b
  end.

(** The body of the [while] loop for one datagram read. *)
Definition process_record (ts_lat ts_lon : ctimeSeries) (x : record)
    (b : buffers) : res buffers :=
  match x with
  | XYZ datagram => process_ping ts_lat ts_lon datagram b
  | NotXYZ _ => Ok b
  end.

(** ** The second pass (lines 65-126): [while r.moredata()] *)

Notation "x 'eqn:' p" := (exist _ x p) (only parsing, at level 20).

(** An exception leaves the loop with the reader as it is. *)
Equations? stream (ts_lat ts_lon : ctimeSeries) (r : allreader) (b : buffers)
  : res buffers * allreader by wf (length (pending r)) lt :=
  stream ts_lat ts_lon r b with moredata r := {
    | false => (Ok b, r)
    | true with inspect (readdatagram r) := {
        | None eqn:Hend => (Ok b, r)   (* not reached under [moredata] *)
        | Some (x, r') eqn:Hread with process_record ts_lat ts_lon x b := {
            | Ok b' => stream ts_lat ts_lon r' b'
            | Raise e => (Raise e, r') } } }.
Proof.
  unfold readdatagram in Hread.
  destruct (pending r) as [|y rest]; [discriminate|].
  injection Hread as _ <-. simpl. lia.
Qed.

(** The same loop as a fold over the datagrams still to read; [stream]
    is shown equal to it and the proofs go by induction on the list. *)
Fixpoint accumulate (ts_lat ts_lon : ctimeSeries) (todo : list record)
    (b : buffers) : res buffers :=
  match todo with
  | [] => Ok b
  | x :: rest =>
      b' <- process_record ts_lat ts_lon x b ;;
      accumulate ts_lat ts_lon rest b'
  end.

(** ** The returned dictionary (lines 165-174) *)

Record dataset : Type := {
  lat : list F;
  lon : list F;
  z : list F;
  bs : list F;
  ang : list F;
  ping_counts : list nat;
  ping_starts : list nat;
  ping_times : list F
}.

(** Lines 144-155. The beam counts are lengths of arrays held in memory;
    the script stores them as [int32] and [np.cumsum] adds them in the
    platform integer. They are kept as natural numbers here: no
    wrap-around is modelled, the total number of beams of a file being
    taken to fit the accumulator. *)
Definition flatten (b : buffers) : res dataset :=
  final_lat <- np.concatenate (list_lat b) ;;
  final_lon <- np.concatenate (list_lon b) ;;
  final_z <- np.concatenate (list_z b) ;;
  final_bs <- np.concatenate (list_bs b) ;;
  final_ang <- np.concatenate (list_ang b) ;;
  let final_beam_counts := list_beam_counts b in
  let final_ping_times := list_ping_times b in
  final_ping_starts <-
    np.concatenate [[0]; removelast (np.cumsum final_beam_counts)] ;;
  Ok {| lat := final_lat; lon := final_lon; z := final_z; bs := final_bs;
        ang := final_ang; ping_counts := final_beam_counts;
        ping_starts := final_ping_starts; ping_times := final_ping_times |}.

(** ** How a call of [read_em122_wgs84] ends *)

(** The three [return None] of the script differ by the message printed
    just before; they are named after the failure kinds of the
    specification. *)
Inductive diagnostic : Type :=
| FileNotFound           (* line 21 *)
| EmptyNavigationError   (* line 36 *)
| NoValidDataError.      (* line 139 *)

Inductive outcome : Type :=
| NoDataset (why : diagnostic)   (* print(...); return None *)
| Raised (e : exn)               (* an exception leaves the function *)
| Returned (d : dataset).        (* return {...} *)

(** Lines 41-46: the two interpolants over the timestamps, column 0 of
    [nav_arr]; latitude is column 1 and longitude column 2. *)
Definition navigation_track (navigation : list position)
  : ctimeSeries * ctimeSeries :=
  let nav_arr := navigation in
  let ts_lat := ctimeSeries_init (map (fun p => fst (fst p)) nav_arr)
                                 (map (fun p => snd (fst p)) nav_arr) in
  let ts_lon := ctimeSeries_init (map (fun p => fst (fst p)) nav_arr)
                                 (map (fun p => snd p) nav_arr) in
  (ts_lat, ts_lon).

(** ** [read_em122_wgs84] (lines 11-174)

    The result pairs the outcome with the reader as the call leaves it
    ([None] when no reader was created). Progress output is not
    modelled. *)
Definition read_em122_wgs84 (fs : filesystem) (filename : string)
  : outcome * option allreader :=
  match fs filename with
  | None => (NoDataset FileNotFound, None)
  | Some f =>
      let r := allreader_open f in
      let '(navigation, r) := loadnavigation r in
      match navigation with
      | [] => let r := close r in (NoDataset EmptyNavigationError, Some r)
      | _ :: _ =>
          let '(ts_lat, ts_lon) := navigation_track navigation in
          let r := rewind r in
          match stream ts_lat ts_lon r no_buffers with
          | (Raise e, r) => (Raised e, Some r)
          | (Ok b, r) =>
              let r := close r in
              if ping_count b =? 0 then (NoDataset NoValidDataError, Some r)
              else match flatten b with
                   | Raise e => (Raised e, Some r)
                   | Ok d => (Returned d, Some r)
                   end
          end
      end
  end.

(** ** Vocabulary of the specification *)

(** The resolved transmit timestamp of a ping (lines 75-76). *)
Definition transmit_time (d : X_DEPTH) : F :=
  to_timestamp (to_datetime (recorddate d) (time d)).

(** Both interpolants answer at the ping's timestamp. *)
Definition in_navigation (ts_lat ts_lon : ctimeSeries) (d : X_DEPTH) : bool :=
  match getValueAt ts_lat (transmit_time d),
        getValueAt ts_lon (transmit_time d) with
  | Some _, Some _ => true
  | _, _ => false
  end.

Fixpoint depth_datagrams (recs : list record) : list X_DEPTH :=
  match recs with
  | [] => []
  | XYZ d :: rest => d :: depth_datagrams rest
  | NotXYZ _ :: rest => depth_datagrams rest
  end.

(** The pings that are not skipped, in file order. *)
Definition located (ts_lat ts_lon : ctimeSeries) (recs : list record)
  : list X_DEPTH :=
  filter (in_navigation ts_lat ts_lon) (depth_datagrams recs).

Definition processed_pings (f : allfile) : list X_DEPTH :=
  located (fst (navigation_track (fixes f))) (snd (navigation_track (fixes f)))
          (datagrams f).

(** The precondition of the data model: the four per-beam lists of a
    depth datagram have one length. *)
Definition same_length (d : X_DEPTH) : Prop :=
  length (acrosstrackdistance d) = length (depth d) /\
  length (alongtrackdistance d) = length (depth d) /\
  length (reflectivity d) = length (depth d).

(** Lines 138-174, after the reader is closed: how the call ends given
    how the loop ended. *)
Definition ending (b : res buffers) : outcome :=
  match b with
  | Raise e => Raised e
  | Ok b =>
      if ping_count b =? 0 then NoDataset NoValidDataError
      else match flatten b with
           | Raise e => Raised e
           | Ok d => Returned d
           end
  end.

(** The exclusive prefix sum of the beam counts, starting from [a]. *)
Fixpoint exclusive_prefix_sum (a : nat) (counts : list nat) : list nat :=
  match counts with
  | [] => []
  | c :: rest => a :: exclusive_prefix_sum (a + c) rest
  end.

(** Beam [i] of the ping [d] as the specification describes it: position
    from the geodetic primitive at the interpolated reference with
    [dx] across-track and [dy] along-track, depth, backscatter, and the
    angle [degrees(atan2(across, depth))]; in the order
    (lat, lon, z, bs, ang). *)
Definition spec_beam (ts_lat ts_lon : ctimeSeries) (d : X_DEPTH) (i : nat)
  : option (F * F * F * F * F) :=
  match getValueAt ts_lat (transmit_time d),
        getValueAt ts_lon (transmit_time d),
        nth_error (acrosstrackdistance d) i,
        nth_error (alongtrackdistance d) i,
        nth_error (depth d) i,
        nth_error (reflectivity d) i with
  | Some ref_lat, Some ref_lon, Some dx, Some dy, Some dz, Some refl =>
      let '(b_lon, b_lat) :=
        calculateGeographicalPositionFromBearingDxDy
          ref_lon ref_lat (heading d) dx dy in
      Some (b_lat, b_lon, dz, refl, degrees (arctan2 dx dz))
  | _, _, _, _, _, _ => None
  end.

(** Entry [j] of the five flat arrays, in the same order. *)
Definition row (D : dataset) (j : nat) : option (F * F * F * F * F) :=
  match nth_error (lat D) j, nth_error (lon D) j, nth_error (z D) j,
        nth_error (bs D) j, nth_error (ang D) j with
  | Some a, Some b, Some c, Some d, Some e => Some (a, b, c, d, e)
  | _, _, _, _, _ => None
  end.

(** Beam [i] of the [k]-th processed ping sits at [ping_starts[k] + i]. *)
Definition flat_layout (f : allfile) (D : dataset) : Prop :=
  forall k d i,
    nth_error (processed_pings f) k = Some d ->
    i < length (depth d) ->
    exists v,
      spec_beam (fst (navigation_track (fixes f)))
                (snd (navigation_track (fixes f))) d i = Some v /\
      row D (nth k (ping_starts D) 0 + i) = Some v.

(** What one processed ping appends to the buffers. *)
Record batch : Type := {
  p_lat : list F;
  p_lon : list F;
  p_z : list F;
  p_bs : list F;
  p_ang : list F;
  beam_count : nat;
  timestamp : F
}.

(** [produced ts_lat ts_lon d p]: the batch [p] is what lines 86-126
    compute for the datagram [d]. *)
Definition produced (ts_lat ts_lon : ctimeSeries) (d : X_DEPTH) (p : batch)
  : Prop :=
  exists ref_lat ref_lon a,
    getValueAt ts_lat (transmit_time d) = Some ref_lat /\
    getValueAt ts_lon (transmit_time d) = Some ref_lon /\
    np.ufunc2 arctan2 (acrosstrackdistance d) (depth d) = Ok a /\
    p_ang p = map degrees a /\
    beam_loop ref_lon ref_lat (heading d) (acrosstrackdistance d)
      (alongtrackdistance d) (seq 0 (length (depth d))) [] []
      = Ok (p_lat p, p_lon p) /\
    p_z p = depth d /\
    p_bs p = reflectivity d /\
    beam_count p = length (depth d) /\
    timestamp p = transmit_time d.

(** The buffers [b0] extended by the batches [ps], [n] depth datagrams
    having been seen. *)
Definition extended (b0 : buffers) (ps : list batch) (n : nat) : buffers :=
  {| list_lat := list_lat b0 ++ map p_lat ps;
     list_lon := list_lon b0 ++ map p_lon ps;
     list_z := list_z b0 ++ map p_z ps;
     list_bs := list_bs b0 ++ map p_bs ps;
     list_ang := list_ang b0 ++ map p_ang ps;
     list_beam_counts := list_beam_counts b0 ++ map beam_count ps;
     list_ping_times := list_ping_times b0 ++ map timestamp ps;
     ping_count := n + ping_count b0 |}.

(** The buffers [b1] followed by what [b2] holds. *)
Definition join (b1 b2 : buffers) : buffers :=
  {| list_lat := list_lat b1 ++ list_lat b2;
     list_lon := list_lon b1 ++ list_lon b2;
     list_z := list_z b1 ++ list_z b2;
     list_bs := list_bs b1 ++ list_bs b2;
     list_ang := list_ang b1 ++ list_ang b2;
     list_beam_counts := list_beam_counts b1 ++ list_beam_counts b2;
     list_ping_times := list_ping_times b1 ++ list_ping_times b2;
     ping_count := ping_count b2 + ping_count b1 |}.

(** Two datasets one after the other: the arrays are appended and the
    offsets of the second are moved past the beams of the first. *)
Definition dataset_app (D1 D2 : dataset) : dataset :=
  {| lat := lat D1 ++ lat D2;
     lon := lon D1 ++ lon D2;
     z := z D1 ++ z D2;
     bs := bs D1 ++ bs D2;
     ang := ang D1 ++ ang D2;
     ping_counts := ping_counts D1 ++ ping_counts D2;
     ping_starts := ping_starts D1
                    ++ map (Nat.add (length (z D1))) (ping_starts D2);
     ping_times := ping_times D1 ++ ping_times D2 |}.

(** The across-track and along-track lists of a datagram have one entry
    per depth value: what the geocoding of lines 98-115 reads. *)
Definition distances_match (d : X_DEPTH) : Prop :=
  length (acrosstrackdistance d) = length (depth d) /\
  length (alongtrackdistance d) = length (depth d).

(** The shapes of [p_across] and [p_z] that [np.arctan2] refuses. *)
Definition no_broadcast (d : X_DEPTH) : Prop :=
  length (acrosstrackdistance d) <> length (depth d) /\
  length (acrosstrackdistance d) <> 1 /\
  length (depth d) <> 1.

(** A list the loop of lines 104-115 runs past. *)
Definition short_distances (d : X_DEPTH) : Prop :=
  length (acrosstrackdistance d) < length (depth d) \/
  length (alongtrackdistance d) < length (depth d).

End Model.

(** ** The two scripts around [read_em122_wgs84]

    The [__main__] block of [read_em_122.py] (lines 176-190) and
    [plot_backscatter.py]. Both reduce arrays of the dataset with numpy's
    [min], [max] and [mean]; the comparison of floats and the mean are
    the fields of [Statistics]. The text printed is not modelled, only
    the values it shows; nor is the drawing done by matplotlib. *)

Module ndarray.

(** [a.min()], [np.min(a)], [a.max()], [np.max(a)]: the fold of a binary
    choice over the array; raises [ValueError] ("zero-size array to
    reduction operation") on an empty array. *)
Definition reduce {A : Type} (f : A -> A -> A) (a : list A) : res A :=
  match a with
  | [] => Raise ValueError
  | x :: rest => Ok (fold_left f rest x)
  end.

End ndarray.

Class Statistics {I : Imports} : Type := {
  minimum : F -> F -> F;   (* the one of two floats that [min] keeps *)
  maximum : F -> F -> F;   (* the one of two floats that [max] keeps *)
  mean : list F -> F       (* np.mean *)
}.

Section Scripts.

Context {I : Imports} {S : Statistics}.

(** Line 178 of [read_em_122.py]. *)
Definition default_input_file : string :=
  "D:\MBES\data\em122_km1808\0000_20180515_180733_KM_EM122.all.mb58".

(** Lines 178-180: [sys.argv[1]] when there is one. *)
Definition input_file (argv : list string) : string :=
  match argv with
  | _ :: given :: _ => given
  | _ => default_input_file
  end.

(** Lines 186-190: the ranges of latitude, longitude, depth and angle,
    each as (min, max), in the order they are printed. *)
Definition ranges (data : dataset) : res (list (F * F)) :=
  lat_min <- ndarray.reduce minimum (lat data) ;;
  lat_max <- ndarray.reduce maximum (lat data) ;;
  lon_min <- ndarray.reduce minimum (lon data) ;;
  lon_max <- ndarray.reduce maximum (lon data) ;;
  z_min <- ndarray.reduce minimum (z data) ;;
  z_max <- ndarray.reduce maximum (z data) ;;
  ang_min <- ndarray.reduce minimum (ang data) ;;
  ang_max <- ndarray.reduce maximum (ang data) ;;
  Ok [(lat_min, lat_max); (lon_min, lon_max); (z_min, z_max);
      (ang_min, ang_max)].

(** Lines 176-190 of [read_em_122.py]: [None] when [data] is [None] and
    nothing is verified, the ranges otherwise. A returned dictionary has
    eight keys and is true. *)
Definition read_em_122_main (fs : filesystem) (argv : list string)
  : res (option (list (F * F))) :=
  match fst (read_em122_wgs84 fs (input_file argv)) with
  | NoDataset _ => Ok None
  | Raised e => Raise e
  | Returned data => shown <- ranges data ;; Ok (Some shown)
  end.

(** Lines 13-21 of [plot_backscatter_map]: minimum, maximum and mean of
    the backscatter, computed and printed before anything is drawn. *)
Definition backscatter_statistics (data : dataset) : res (F * F * F) :=
  let bs := bs data in
  lowest <- ndarray.reduce minimum bs ;;
  highest <- ndarray.reduce maximum bs ;;
  Ok (lowest, highest, mean bs).

(** Line 58 of [plot_backscatter.py]. *)
Definition plot_input_file : string :=
  "D:\MBES\data\em122_km1128\0000_20111001_182048_KM.all.mb58".

(** Lines 56-68 of [plot_backscatter.py], up to the statistics of
    [plot_backscatter_map]: [None] stands for the message of line 68. *)
Definition plot_backscatter_main (fs : filesystem) : res (option (F * F * F)) :=
  match fst (read_em122_wgs84 fs plot_input_file) with
  | NoDataset _ => Ok None
  | Raised e => Raise e
  | Returned data_dict =>
      shown <- backscatter_statistics data_dict ;; Ok (Some shown)
  end.

End Scripts.

(** ** A small instance to run the script on sample files

    Integers stand for floats; the imported functions are simple stand-ins
    that keep their arguments apart (none is symmetric). The interpolant
    answers [None] outside the span of its timestamps. *)

Module Sample.

Fixpoint interpolate (times values : list Z) (t : Z) : option Z :=
  match times, values with
  | t0 :: ((t1 :: _) as times'), v0 :: ((v1 :: _) as values') =>
      if (t0 <=? t)%Z && (t <=? t1)%Z
      then Some (v0 + (v1 - v0) * (t - t0) / (t1 - t0))%Z
      else interpolate times' values' t
  | [t0], [v0] => if (t0 =? t)%Z then Some v0 else None
  | _, _ => None
  end.

#[export] Instance imports : Imports := {|
  F := Z;
  datetime := Z * Z;
  to_datetime := fun recorddate time => (recorddate, time);
  to_timestamp := fun dt => (fst dt * 86400 + snd dt)%Z;
  ctimeSeries := list Z * list Z;
  ctimeSeries_init := fun times values => (times, values);
  getValueAt := fun ts t => interpolate (fst ts) (snd ts) t;
  calculateGeographicalPositionFromBearingDxDy :=
    fun lon lat bearing dx dy =>
      (lon + 2 * dx + 3 * bearing, lat + 5 * dy + 7 * bearing)%Z;
  arctan2 := fun y x => (1000 * y - x)%Z;
  degrees := fun a => (57 * a)%Z
|}.

Definition xyz (t : Z) (hdg : Z) (across along dep refl : list Z) : X_DEPTH :=
  {| recorddate := 0; time := t; heading := hdg;
     acrosstrackdistance := across; alongtrackdistance := along;
     depth := dep; reflectivity := refl |}.

Definition ping (t : Z) (hdg : Z) (across along dep refl : list Z) : record :=
  XYZ (xyz t hdg across along dep refl).

Definition track : list position := [(0, 10, 120); (10, 20, 140)]%Z.

Definition survey : string := "survey.all".

(** A file system holding the one file [f] under the name [survey]. *)
Definition disk (f : allfile) : filesystem :=
  fun name => if String.eqb name survey then Some f else None.

(** Two pings inside the navigation span, 3 and 5 beams. *)
Definition two_pings : allfile :=
  {| fixes := track;
     datagrams :=
       [ NotXYZ "P"%char;
         ping 2 0 [1; 2; 3] [4; 5; 6] [100; 101; 102] [-20; -21; -22];
         NotXYZ "A"%char;
         ping 5 1 [1; 2; 3; 4; 5] [0; 0; 0; 0; 0] [90; 91; 92; 93; 94]
              [-30; -31; -32; -33; -34] ]%Z |}.

(** The only ping was transmitted after the last fix. *)
Definition late_ping : allfile :=
  {| fixes := track;
     datagrams := [ NotXYZ "P"%char; ping 20 0 [1; 2] [0; 0] [100; 100] [-20; -21] ]%Z |}.

(** A depth datagram with no beam, inside the navigation span. *)
Definition beamless_ping : allfile :=
  {| fixes := track; datagrams := [ ping 5 0 [] [] [] [] ]%Z |}.

(** No fix at all. *)
Definition no_navigation : allfile :=
  {| fixes := [];
     datagrams := [ ping 5 0 [1] [0] [100] [-20] ]%Z |}.

(** A ping transmitted after the last fix, behind the two good ones. *)
Definition straggler : X_DEPTH :=
  (xyz 20 0 [1; 2] [0; 0] [100; 100] [-20; -21])%Z.

Definition two_pings_and_straggler : allfile :=
  {| fixes := track; datagrams := datagrams two_pings ++ [XYZ straggler] |}.

(** The first datagram carries one depth and three of everything else. *)
Definition ragged_pings : allfile :=
  {| fixes := track;
     datagrams := [ ping 2 0 [1; 2; 3] [0; 0; 0] [100] [7; 8; 9];
                    ping 5 0 [5] [0] [200] [4] ]%Z |}.

(** Two across-track distances against three depths: the shapes do not
    broadcast. *)
Definition mismatched_ping : allfile :=
  {| fixes := track;
     datagrams := [ ping 5 0 [1; 2] [0; 0] [100; 101; 102] [1; 2; 3] ]%Z |}.

(** What the call returns for [two_pings], and how it leaves the reader. *)
Definition two_pings_dataset : dataset :=
  {| lat := [32; 37; 42; 22; 22; 22; 22; 22]%Z;
     lon := [126; 128; 130; 135; 137; 139; 141; 143]%Z;
     z := [100; 101; 102; 90; 91; 92; 93; 94]%Z;
     bs := [-20; -21; -22; -30; -31; -32; -33; -34]%Z;
     ang := [51300; 108243; 165186; 51870; 108813; 165756; 222699; 279642]%Z;
     ping_counts := [3; 5];
     ping_starts := [0; 3];
     ping_times := [2; 5]%Z |}.

Definition two_pings_reader : allreader :=
  {| source := two_pings; pending := []; closed := true;
     calls := [Loadnavigation; Rewind; Readdatagram; Readdatagram;
               Readdatagram; Readdatagram; Close] |}.

#[export] Instance statistics : Statistics := {|
  minimum := Z.min;
  maximum := Z.max;
  mean := fun a => (fold_left Z.add a 0 / Z.of_nat (length a))%Z
|}.


(** [two_pings] cut after its second datagram. *)
Definition first_part : list record := firstn 2 (datagrams two_pings).
Definition second_part : list record := skipn 2 (datagrams two_pings).

Definition first_part_dataset : dataset :=
  {| lat := [32; 37; 42]%Z;
     lon := [126; 128; 130]%Z;
     z := [100; 101; 102]%Z;
     bs := [-20; -21; -22]%Z;
     ang := [51300; 108243; 165186]%Z;
     ping_counts := [3];
     ping_starts := [0];
     ping_times := [2]%Z |}.

Definition second_part_dataset : dataset :=
  {| lat := [22; 22; 22; 22; 22]%Z;
     lon := [135; 137; 139; 141; 143]%Z;
     z := [90; 91; 92; 93; 94]%Z;
     bs := [-30; -31; -32; -33; -34]%Z;
     ang := [51870; 108813; 165756; 222699; 279642]%Z;
     ping_counts := [5];
     ping_starts := [0];
     ping_times := [5]%Z |}.

(** What the call returns for [beamless_ping]. *)
Definition beamless_dataset : dataset :=
  {| lat := []; lon := []; z := []; bs := []; ang := [];
     ping_counts := [0]; ping_starts := [0]; ping_times := [5]%Z |}.

(** The command line [python read_em_122.py survey.all]. *)
Definition command_line : list string := ["read_em_122.py"%string; survey].

(** A file system holding [f] where [plot_backscatter.py] looks for it. *)
Definition plot_disk (f : allfile) : filesystem :=
  fun name => if String.eqb name plot_input_file then Some f else None.

End Sample.

(** * Properties *)

Section Theory.

Context {I : Imports}.

(** ** The loop *)

Lemma stream_step ts_lat ts_lon r b :
  stream ts_lat ts_lon r b =
  match pending r with
  | [] => (Ok b, r)
  | x :: rest =>
      let r' := {| source := source r; pending := rest; closed := closed r;
                   calls := logged Readdatagram r |} in
      match process_record ts_lat ts_lon x b with
      | Ok b' => stream ts_lat ts_lon r' b'
      | Raise e => (Raise e, r')
      end
  end.
Proof.
  funelim (stream ts_lat ts_lon r b).
  all: unfold moredata, readdatagram in *.
  all: destruct (pending r) as [|y rest]; try discriminate; try reflexivity.
  all: cbn; match goal with H : _ = {| pr1 := _; pr2 := _ |} |- _ => clear H end.
  all: inversion Hread; subst; rewrite Heq; reflexivity.
Qed.

(** The loop computes the fold, and touches the reader only by reading. *)
Lemma stream_accumulate ts_lat ts_lon todo :
  forall r b, pending r = todo ->
    fst (stream ts_lat ts_lon r b) = accumulate ts_lat ts_lon todo b /\
    closed (snd (stream ts_lat ts_lon r b)) = closed r /\
    source (snd (stream ts_lat ts_lon r b)) = source r /\
    (forall b', fst (stream ts_lat ts_lon r b) = Ok b' ->
       pending (snd (stream ts_lat ts_lon r b)) = [] /\
       calls (snd (stream ts_lat ts_lon r b))
         = calls r ++ repeat Readdatagram (length todo)).
Proof.
  induction todo as [|x rest IH]; intros r b Hp; rewrite stream_step, Hp.
  - cbn. split; [|split; [|split]]; auto.
    intros _ _. split; [assumption | now rewrite app_nil_r].
  - cbn zeta. cbn [accumulate bind].
    destruct (process_record ts_lat ts_lon x b) as [b1|e]; cbn [bind].
    + match goal with |- context [stream _ _ ?r1 b1] =>
        destruct (IH r1 b1 eq_refl) as (H1 & H2 & H3 & H4) end.
      split; [|split; [|split]]; auto.
      intros b' Hb'. destruct (H4 b' Hb') as [Hq Hc]. split; [assumption|].
      rewrite Hc. cbn. unfold logged. rewrite <- app_assoc. reflexivity.
    + cbn. split; [|split; [|split]]; auto; discriminate.
Qed.

(** ** Lists: offsets and concatenation *)

Lemma starts_exclusive counts : forall a,
  counts <> [] ->
  a :: removelast (np.cumsum_from a counts) = exclusive_prefix_sum a counts.
Proof.
  induction counts as [|c rest IH]; intros a Hne; [congruence|].
  cbn [np.cumsum_from exclusive_prefix_sum]. f_equal.
  destruct rest as [|c' rest']; [reflexivity|].
  rewrite <- IH by discriminate. reflexivity.
Qed.

Lemma exclusive_prefix_sum_length counts : forall a,
  length (exclusive_prefix_sum a counts) = length counts.
Proof. induction counts; intros; cbn; auto. Qed.

Lemma exclusive_prefix_sum_nth counts : forall a k,
  k < length counts ->
  nth k (exclusive_prefix_sum a counts) 0 = a + list_sum (firstn k counts).
Proof.
  induction counts as [|c rest IH]; intros a k Hk; cbn in Hk; [lia|].
  destruct k as [|k]; simpl; [lia|]. rewrite IH by lia. lia.
Qed.

Lemma list_sum_firstn_succ counts : forall k,
  k < length counts ->
  list_sum (firstn (S k) counts) = list_sum (firstn k counts) + nth k counts 0.
Proof.
  induction counts as [|c rest IH]; intros k Hk; cbn in Hk; [lia|].
  destruct k as [|k]; [simpl; lia|].
  change (firstn (S (S k)) (c :: rest)) with (c :: firstn (S k) rest).
  change (firstn (S k) (c :: rest)) with (c :: firstn k rest).
  change (list_sum (c :: firstn (S k) rest)) with (c + list_sum (firstn (S k) rest)).
  change (list_sum (c :: firstn k rest)) with (c + list_sum (firstn k rest)).
  cbn [nth]. rewrite IH by lia. lia.
Qed.

Lemma nth_error_concat_at {A : Type} (ls : list (list A)) : forall k x i,
  nth_error ls k = Some x -> i < length x ->
  nth_error (concat ls) (length (concat (firstn k ls)) + i) = nth_error x i.
Proof.
  induction ls as [|l ls IH]; intros k x i Hk Hi.
  - destruct k; discriminate.
  - destruct k as [|k]; cbn in Hk.
    + injection Hk as ->. cbn. now rewrite nth_error_app1.
    + cbn [firstn concat]. rewrite length_app, <- Nat.add_assoc.
      rewrite nth_error_app2 by lia.
      replace (length l + (length (concat (firstn k ls)) + i) - length l)
        with (length (concat (firstn k ls)) + i) by lia.
      now apply IH.
Qed.

Lemma length_concat_firstn {A B : Type} (g : A -> list B) (c : A -> nat)
    (ps : list A) :
  (forall p, In p ps -> length (g p) = c p) ->
  forall k, length (concat (firstn k (map g ps)))
            = list_sum (firstn k (map c ps)).
Proof.
  induction ps as [|p ps IH]; intros Hlen k.
  - destruct k; reflexivity.
  - destruct k as [|k]; [reflexivity|]. cbn.
    rewrite length_app, Hlen by (left; reflexivity).
    rewrite IH; [reflexivity|]. intros q Hq. apply Hlen. now right.
Qed.

Lemma length_concat_map {A B : Type} (g : A -> list B) (c : A -> nat)
    (ps : list A) :
  (forall p, In p ps -> length (g p) = c p) ->
  length (concat (map g ps)) = list_sum (map c ps).
Proof.
  intros Hlen. rewrite <- (firstn_all (map g ps)), <- (firstn_all (map c ps)).
  rewrite !length_map. now apply length_concat_firstn.
Qed.

(** ** One ping *)

Lemma beam_loop_ok ref_lon ref_lat hdg across along : forall n s la lo lats lons,
  beam_loop ref_lon ref_lat hdg across along (seq s n) la lo = Ok (lats, lons) ->
  exists ta to,
    lats = la ++ ta /\ lons = lo ++ to /\ length ta = n /\ length to = n /\
    forall j, j < n ->
      exists dx dy,
        nth_error across (s + j) = Some dx /\
        nth_error along (s + j) = Some dy /\
        nth_error to j = Some (fst (calculateGeographicalPositionFromBearingDxDy
                                      ref_lon ref_lat hdg dx dy)) /\
        nth_error ta j = Some (snd (calculateGeographicalPositionFromBearingDxDy
                                      ref_lon ref_lat hdg dx dy)).
Proof.
  induction n as [|n IH]; intros s la lo lats lons H.
  - cbn in H. injection H as <- <-. exists [], [].
    rewrite !app_nil_r. repeat split; auto. intros j Hj; lia.
  - cbn [seq beam_loop] in H. unfold np.getitem in H.
    destruct (nth_error across s) as [dx|] eqn:Ex; [|discriminate].
    destruct (nth_error along s) as [dy|] eqn:Ey; [|discriminate].
    cbn [bind] in H.
    destruct (calculateGeographicalPositionFromBearingDxDy ref_lon ref_lat hdg dx dy)
      as [b_lon b_lat] eqn:Eg.
    destruct (IH _ _ _ _ _ H) as (ta & to & -> & -> & Hta & Hto & Hj).
    exists (b_lat :: ta), (b_lon :: to).
    rewrite <- !app_assoc. cbn. repeat split; auto.
    intros [|j] Hlt.
    + exists dx, dy. rewrite Nat.add_0_r, Eg. auto.
    + destruct (Hj j ltac:(lia)) as (dx' & dy' & ? & ? & ? & ?).
      exists dx', dy'. rewrite <- Nat.add_succ_comm. auto.
Qed.

Lemma ufunc2_at (f : F -> F -> F) x1 x2 a i u v :
  np.ufunc2 f x1 x2 = Ok a ->
  nth_error x1 i = Some u -> nth_error x2 i = Some v ->
  nth_error a i = Some (f u v).
Proof.
  unfold np.ufunc2. intros H Hu Hv.
  destruct (length x1 =? length x2) eqn:El.
  - injection H as <-. rewrite nth_error_map.
    assert (Hc : nth_error (combine x1 x2) i = Some (u, v)).
    { clear El. revert x2 i Hu Hv.
      induction x1 as [|h1 t1 IH]; intros [|h2 t2] [|i] Hu Hv;
        try discriminate; cbn in *.
      - congruence.
      - now apply IH. }
    now rewrite Hc.
  - destruct x1 as [|a1 [|a2 t1]].
    + destruct i; discriminate.
    + destruct i as [|i]; [|destruct i; discriminate].
      injection Hu as ->. injection H as <-.
      exact (map_nth_error (fun b => f u b) 0 x2 Hv).
    + destruct x2 as [|b1 [|b2 t2]]; try discriminate.
      destruct i as [|i]; [|destruct i; discriminate].
      injection Hv as ->. injection H as <-.
      exact (map_nth_error (fun a => f a v) 0 _ Hu).
Qed.

Lemma ufunc2_same_length (f : F -> F -> F) x1 x2 a :
  np.ufunc2 f x1 x2 = Ok a -> length x1 = length x2 -> length a = length x2.
Proof.
  unfold np.ufunc2. intros H Hl. rewrite Hl, Nat.eqb_refl in H.
  injection H as <-. rewrite length_map, length_combine. lia.
Qed.

Lemma extended_one b p ps n :
  extended (extended b [p] 1) ps n = extended b (p :: ps) (S n).
Proof.
  unfold extended; cbn. rewrite <- !app_assoc. cbn.
  f_equal. lia.
Qed.

Lemma extended_skip b ps n :
  extended (counted b) ps n = extended b ps (S n).
Proof. unfold extended, counted; cbn. f_equal. lia. Qed.

Lemma extended_none b : extended b [] 0 = b.
Proof. destruct b. unfold extended; cbn. rewrite !app_nil_r. reflexivity. Qed.

(** A ping either is skipped, leaving every buffer as it was, or appends
    the batch it produced. *)
Lemma process_ping_cases ts_lat ts_lon d b b' :
  process_ping ts_lat ts_lon d b = Ok b' ->
  (in_navigation ts_lat ts_lon d = false /\ b' = counted b) \/
  (in_navigation ts_lat ts_lon d = true /\
   exists p, produced ts_lat ts_lon d p /\ b' = extended b [p] 1).
Proof.
  unfold process_ping, in_navigation. fold (transmit_time d).
  destruct (getValueAt ts_lat (transmit_time d)) as [ref_lat|] eqn:Elat;
    [|intros H; injection H as <-; left; auto].
  destruct (getValueAt ts_lon (transmit_time d)) as [ref_lon|] eqn:Elon;
    [|intros H; injection H as <-; left; auto].
  destruct (np.ufunc2 arctan2 (acrosstrackdistance d) (depth d)) as [a|e] eqn:Ea;
    cbn [bind]; [|discriminate].
  destruct (beam_loop ref_lon ref_lat (heading d) (acrosstrackdistance d)
              (alongtrackdistance d) (seq 0 (length (depth d))) [] [])
    as [[lats lons]|e] eqn:Eb; cbn [bind]; [|discriminate].
  intros H; injection H as <-. right. split; [reflexivity|].
  exists {| p_lat := lats; p_lon := lons; p_z := depth d;
            p_bs := reflectivity d; p_ang := map degrees a;
            beam_count := length (depth d); timestamp := transmit_time d |}.
  split; [|reflexivity].
  exists ref_lat, ref_lon, a. cbn. repeat split; auto.
Qed.

(** A skipped ping raises nothing and only moves [ping_count]. *)
Lemma process_ping_skip ts_lat ts_lon d b :
  in_navigation ts_lat ts_lon d = false ->
  process_ping ts_lat ts_lon d b = Ok (counted b).
Proof.
  unfold process_ping, in_navigation. fold (transmit_time d).
  destruct (getValueAt ts_lat (transmit_time d));
    [destruct (getValueAt ts_lon (transmit_time d))|]; intros H;
    try discriminate; reflexivity.
Qed.

(** What the loop leaves in the buffers: one batch per located ping, in
    file order, and a count of all depth datagrams seen. *)
Lemma accumulate_trace ts_lat ts_lon todo : forall b b',
  accumulate ts_lat ts_lon todo b = Ok b' ->
  exists ps,
    Forall2 (produced ts_lat ts_lon) (located ts_lat ts_lon todo) ps /\
    b' = extended b ps (length (depth_datagrams todo)).
Proof.
  unfold located.
  induction todo as [|x rest IH]; intros b b' H; cbn in H.
  - injection H as <-. exists []. split; [constructor|].
    symmetry. apply extended_none.
  - destruct x as [d|c]; cbn [process_record] in H.
    + destruct (process_ping ts_lat ts_lon d b) as [b1|e] eqn:Ep;
        cbn [bind] in H; [|discriminate].
      destruct (IH _ _ H) as (ps & Hps & ->).
      cbn [depth_datagrams filter length].
      destruct (process_ping_cases _ _ _ _ Ep) as [[Hn ->]|[Hn (p & Hp & ->)]];
        rewrite Hn.
      * exists ps. split; [assumption|]. apply extended_skip.
      * exists (p :: ps). split; [now constructor|]. apply extended_one.
    + cbn [bind] in H. destruct (IH _ _ H) as (ps & Hps & ->).
      exists ps. split; assumption || reflexivity.
Qed.

Lemma located_le ts_lat ts_lon todo :
  length (located ts_lat ts_lon todo) <= length (depth_datagrams todo).
Proof. unfold located. apply filter_length_le. Qed.

(** ** The whole call *)

Lemma read_outcome fs filename f :
  fs filename = Some f -> fixes f <> [] ->
  fst (read_em122_wgs84 fs filename) =
  ending (accumulate (fst (navigation_track (fixes f)))
                     (snd (navigation_track (fixes f)))
                     (datagrams f) no_buffers).
Proof.
  intros Hf Hn. unfold read_em122_wgs84. rewrite Hf.
  cbn [loadnavigation allreader_open source fst snd].
  destruct (fixes f) as [|p nav] eqn:En; [congruence|].
  set (t := navigation_track (p :: nav)). destruct t as [ts_lat ts_lon] eqn:Et.
  cbn [fst snd].
  match goal with |- context [stream ts_lat ts_lon ?r ?b] =>
    destruct (stream_accumulate ts_lat ts_lon r b eq_refl) as (H1 & _);
    destruct (stream ts_lat ts_lon r b) as [[b1|e] r1] end;
    cbn [fst] in H1; cbn [rewind pending source] in H1; rewrite <- H1; cbn [ending].
  - destruct (ping_count b1 =? 0); [reflexivity|].
    destruct (flatten b1); reflexivity.
  - reflexivity.
Qed.

Lemma flatten_ok b D :
  flatten b = Ok D ->
  list_lat b <> [] /\
  lat D = concat (list_lat b) /\ lon D = concat (list_lon b) /\
  z D = concat (list_z b) /\ bs D = concat (list_bs b) /\
  ang D = concat (list_ang b) /\
  ping_counts D = list_beam_counts b /\
  ping_starts D = 0 :: removelast (np.cumsum (list_beam_counts b)) /\
  ping_times D = list_ping_times b.
Proof.
  unfold flatten, np.concatenate.
  destruct (list_lat b) eqn:E1; [discriminate|].
  destruct (list_lon b) eqn:E2; [discriminate|].
  destruct (list_z b) eqn:E3; [discriminate|].
  destruct (list_bs b) eqn:E4; [discriminate|].
  destruct (list_ang b) eqn:E5; [discriminate|].
  cbn [bind]. intros H; injection H as <-. cbn [lat lon z bs ang ping_counts
    ping_starts ping_times].
  repeat split; try reflexivity; try discriminate.
  cbn. now rewrite app_nil_r.
Qed.

Lemma flatten_counted b : flatten (counted b) = flatten b.
Proof. reflexivity. Qed.

Lemma Forall2_In_r {A B : Type} (R : A -> B -> Prop) l1 l2 y :
  Forall2 R l1 l2 -> In y l2 -> exists x, In x l1 /\ R x y.
Proof.
  induction 1 as [|a b0 l1 l2 Hab _ IH]; intros Hy; [destruct Hy|].
  destruct Hy as [<-|Hy].
  - exists a. split; [now left | assumption].
  - destruct (IH Hy) as (x & Hx & Hr). exists x. split; [now right | assumption].
Qed.

Lemma Forall2_nth_error_l {A B : Type} (R : A -> B -> Prop) l1 l2 :
  Forall2 R l1 l2 ->
  forall k x, nth_error l1 k = Some x ->
    exists y, nth_error l2 k = Some y /\ R x y.
Proof.
  induction 1 as [|a b0 l1 l2 Hab _ IH]; intros [|k] x Hk; try discriminate.
  - injection Hk as <-. exists b0. split; [reflexivity | assumption].
  - now apply IH.
Qed.

Lemma depth_datagrams_In recs d :
  In d (depth_datagrams recs) <-> In (XYZ d) recs.
Proof.
  induction recs as [|[d'|c] rest IH]; cbn; [tauto| |].
  - rewrite IH. split; intros [H|H]; auto; left; congruence.
  - rewrite IH. split; [auto|]. intros [H|H]; [discriminate | assumption].
Qed.

Lemma processed_pings_In f d :
  In d (processed_pings f) ->
  In (XYZ d) (datagrams f) /\
  in_navigation (fst (navigation_track (fixes f)))
                (snd (navigation_track (fixes f))) d = true.
Proof.
  unfold processed_pings, located. rewrite filter_In, depth_datagrams_In. auto.
Qed.

(** A returned dataset is the concatenation of one batch per located
    ping, in file order; there is at least one batch. *)
Lemma returned_trace fs filename f D :
  fs filename = Some f ->
  fst (read_em122_wgs84 fs filename) = Returned D ->
  exists ps,
    ps <> [] /\
    Forall2 (produced (fst (navigation_track (fixes f)))
                      (snd (navigation_track (fixes f))))
            (processed_pings f) ps /\
    lat D = concat (map p_lat ps) /\ lon D = concat (map p_lon ps) /\
    z D = concat (map p_z ps) /\ bs D = concat (map p_bs ps) /\
    ang D = concat (map p_ang ps) /\
    ping_counts D = map beam_count ps /\
    ping_starts D = exclusive_prefix_sum 0 (map beam_count ps) /\
    ping_times D = map timestamp ps.
Proof.
  intros Hf HD.
  destruct (fixes f) as [|p0 nav] eqn:En.
  { unfold read_em122_wgs84 in HD. rewrite Hf in HD. cbn in HD.
    rewrite En in HD. discriminate. }
  rewrite (read_outcome fs filename Hf) in HD by congruence.
  rewrite En in HD. unfold processed_pings. rewrite En.
  set (ts_lat := fst (navigation_track (p0 :: nav))) in *.
  set (ts_lon := snd (navigation_track (p0 :: nav))) in *.
  destruct (accumulate ts_lat ts_lon (datagrams f) no_buffers) as [b|e] eqn:Ea;
    cbn [ending] in HD; [|discriminate].
  destruct (ping_count b =? 0); [discriminate|].
  destruct (flatten b) as [D'|e] eqn:Efl; [|discriminate].
  injection HD as ->.
  destruct (accumulate_trace _ _ _ _ Ea) as (ps & Hps & ->).
  destruct (flatten_ok _ Efl) as (Hne & H1 & H2 & H3 & H4 & H5 & H6 & H7 & H8).
  cbn in Hne, H1, H2, H3, H4, H5, H6, H7, H8.
  exists ps. split; [intros ->; now apply Hne|].
  split; [assumption|]. repeat (split; [assumption|]).
  split; [|assumption]. rewrite H7. apply starts_exclusive.
  destruct ps; [now contradiction Hne | discriminate].
Qed.

Lemma produced_lengths ts_lat ts_lon d p :
  produced ts_lat ts_lon d p ->
  length (p_lat p) = beam_count p /\ length (p_lon p) = beam_count p /\
  length (p_z p) = beam_count p.
Proof.
  intros (ref_lat & ref_lon & a & _ & _ & _ & _ & Hb & Hz & _ & Hc & _).
  destruct (beam_loop_ok _ _ _ _ _ _ _ _ _ Hb) as (ta & to & -> & -> & ? & ? & _).
  cbn. rewrite Hz, Hc. auto.
Qed.

Lemma produced_lengths_same ts_lat ts_lon d p :
  produced ts_lat ts_lon d p -> same_length d ->
  length (p_bs p) = beam_count p /\ length (p_ang p) = beam_count p.
Proof.
  intros (ref_lat & ref_lon & a & _ & _ & Ha & Hang & _ & _ & Hbs & Hc & _)
         (Hx & _ & Hr).
  rewrite Hbs, Hang, Hc, length_map. split; [assumption|].
  now apply (ufunc2_same_length _ _ _ Ha).
Qed.

Lemma produced_counts ts_lat ts_lon ds ps :
  Forall2 (produced ts_lat ts_lon) ds ps ->
  map beam_count ps = map (fun d => length (depth d)) ds /\
  map timestamp ps = map transmit_time ds.
Proof.
  induction 1 as [|d p ds ps Hp _ [IH1 IH2]]; [split; reflexivity|].
  destruct Hp as (? & ? & ? & _ & _ & _ & _ & _ & _ & _ & Hc & Ht).
  cbn. rewrite Hc, Ht, IH1, IH2. split; reflexivity.
Qed.

Lemma no_ping_no_dataset ts_lat ts_lon todo b :
  accumulate ts_lat ts_lon todo no_buffers = Ok b ->
  located ts_lat ts_lon todo = [] ->
  flatten b = Raise ValueError.
Proof.
  intros Ha Hl. destruct (accumulate_trace _ _ _ _ Ha) as (ps & Hps & ->).
  rewrite Hl in Hps. inversion Hps. reflexivity.
Qed.

(** No exception comes out of a loop whose pings are all skipped. *)
Lemma accumulate_all_skipped ts_lat ts_lon todo : forall b,
  located ts_lat ts_lon todo = [] ->
  accumulate ts_lat ts_lon todo b
  = Ok (extended b [] (length (depth_datagrams todo))).
Proof.
  unfold located.
  induction todo as [|[d|c] rest IH]; intros b Hl; cbn.
  - now rewrite extended_none.
  - cbn in Hl.
    destruct (in_navigation ts_lat ts_lon d) eqn:En; [discriminate|].
    rewrite (process_ping_skip _ _ _ _ En). cbn [bind].
    rewrite (IH _ Hl). now rewrite extended_skip.
  - now apply IH.
Qed.

(** ** Ending of the call *)

(** C1. When navigation is present, the file holds at least one depth
    datagram and every ping's timestamp is outside the navigation domain,
    the call does not end in [NoValidDataError]: [np.concatenate] is
    reached with no batch and [ValueError] leaves the function. *)
Theorem all_pings_skipped_raises fs filename f :
  fs filename = Some f ->
  fixes f <> [] ->
  depth_datagrams (datagrams f) <> [] ->
  processed_pings f = [] ->
  fst (read_em122_wgs84 fs filename) = Raised ValueError.
Proof.
  intros Hf Hn Hx Hp. rewrite (read_outcome fs filename Hf Hn).
  unfold processed_pings in Hp. rewrite (accumulate_all_skipped _ _ _ _ Hp).
  cbn [ending extended ping_count].
  destruct (depth_datagrams (datagrams f)); [congruence|]. reflexivity.
Qed.

(** The other half of the same sentence holds: with navigation present
    and no depth datagram in the file, the call ends in
    [NoValidDataError]. *)
Lemma no_depth_datagram_no_valid_data fs filename f :
  fs filename = Some f ->
  fixes f <> [] ->
  depth_datagrams (datagrams f) = [] ->
  fst (read_em122_wgs84 fs filename) = NoDataset NoValidDataError.
Proof.
  intros Hf Hn Hx. rewrite (read_outcome fs filename Hf Hn).
  rewrite accumulate_all_skipped by (unfold located; now rewrite Hx).
  rewrite Hx. reflexivity.
Qed.

(** C9. With no position fix the call ends in [EmptyNavigationError]:
    nothing is returned, the reader is closed right after
    [loadnavigation], no datagram has been read and every datagram of
    the file is still pending. *)
Theorem empty_navigation_is_fatal fs filename f :
  fs filename = Some f ->
  fixes f = [] ->
  read_em122_wgs84 fs filename =
  (NoDataset EmptyNavigationError,
   Some {| source := f; pending := datagrams f; closed := true;
           calls := [Loadnavigation; Close] |}).
Proof.
  intros Hf Hn. unfold read_em122_wgs84. rewrite Hf. cbn. rewrite Hn.
  reflexivity.
Qed.

(** C10. A returned dataset indexes at least one ping: the three index
    arrays have at least one entry each. *)
Theorem returned_dataset_has_a_ping fs filename D :
  fst (read_em122_wgs84 fs filename) = Returned D ->
  1 <= length (ping_counts D) /\
  1 <= length (ping_starts D) /\
  1 <= length (ping_times D).
Proof.
  intros HD. destruct (fs filename) as [f|] eqn:Hf.
  - destruct (returned_trace fs filename Hf HD)
      as (ps & Hne & _ & _ & _ & _ & _ & _ & Hc & Hs & Ht).
    rewrite Hc, Hs, Ht, exclusive_prefix_sum_length, !length_map.
    destruct ps; [congruence|]. cbn. lia.
  - unfold read_em122_wgs84 in HD. rewrite Hf in HD. discriminate.
Qed.

(** ** Shape of the dataset *)

(** C2. When the four per-beam lists of every depth datagram have one
    length, the five flat arrays of a returned dataset all have length
    [sum(ping_counts)], the three index arrays have one length [N],
    [ping_starts[0] = 0] and [ping_starts[k+1] = ping_starts[k] +
    ping_counts[k]] for [k < N-1]. *)
Theorem dataset_shape fs filename f D :
  fs filename = Some f ->
  Forall same_length (depth_datagrams (datagrams f)) ->
  fst (read_em122_wgs84 fs filename) = Returned D ->
  length (lat D) = list_sum (ping_counts D) /\
  length (lon D) = list_sum (ping_counts D) /\
  length (z D) = list_sum (ping_counts D) /\
  length (bs D) = list_sum (ping_counts D) /\
  length (ang D) = list_sum (ping_counts D) /\
  length (ping_starts D) = length (ping_counts D) /\
  length (ping_times D) = length (ping_counts D) /\
  nth_error (ping_starts D) 0 = Some 0 /\
  forall k, S k < length (ping_counts D) ->
    nth (S k) (ping_starts D) 0
    = nth k (ping_starts D) 0 + nth k (ping_counts D) 0.
Proof.
  intros Hf Hwf HD.
  destruct (returned_trace fs filename Hf HD)
    as (ps & Hne & Hps & H1 & H2 & H3 & H4 & H5 & Hc & Hs & Ht).
  assert (Hall : forall p, In p ps ->
            length (p_lat p) = beam_count p /\ length (p_lon p) = beam_count p /\
            length (p_z p) = beam_count p /\ length (p_bs p) = beam_count p /\
            length (p_ang p) = beam_count p).
  { intros p Hp. destruct (Forall2_In_r _ Hps Hp) as (d & Hd & Hprod).
    destruct (produced_lengths Hprod) as (? & ? & ?).
    destruct (produced_lengths_same Hprod) as (? & ?); [|auto 6].
    rewrite Forall_forall in Hwf. apply Hwf.
    apply depth_datagrams_In. now apply processed_pings_In. }
  rewrite H1, H2, H3, H4, H5, Hc, Hs, Ht.
  rewrite exclusive_prefix_sum_length, !length_map.
  repeat (split; [apply length_concat_map; intros p Hp; apply Hall, Hp|]).
  split; [reflexivity|]. split; [reflexivity|].
  split; [destruct ps; [congruence | reflexivity]|].
  intros k Hk. rewrite !exclusive_prefix_sum_nth by (rewrite length_map; lia).
  rewrite list_sum_firstn_succ by (rewrite length_map; lia). lia.
Qed.

(** The index arrays against the located pings of the file. *)
Lemma index_of_located_pings fs filename f D :
  fs filename = Some f ->
  fst (read_em122_wgs84 fs filename) = Returned D ->
  ping_counts D = map (fun d => length (depth d)) (processed_pings f) /\
  ping_times D = map transmit_time (processed_pings f) /\
  length (ping_starts D) = length (processed_pings f).
Proof.
  intros Hf HD.
  destruct (returned_trace fs filename Hf HD)
    as (ps & _ & Hps & _ & _ & _ & _ & _ & Hc & Hs & Ht).
  destruct (produced_counts Hps) as [Hc' Ht'].
  rewrite Hc, Ht, Hs, exclusive_prefix_sum_length, Hc', Ht', length_map.
  repeat split; reflexivity.
Qed.

(** C3, as the code has it. The index lists exactly the pings located in
    the navigation domain, in file order: a skipped ping has no entry, and
    an entry of [ping_counts] is the number of depth values of its
    datagram (zero for a datagram without beams). *)
Theorem ping_index_lists_located_pings fs filename f D :
  fs filename = Some f ->
  fst (read_em122_wgs84 fs filename) = Returned D ->
  ping_counts D = map (fun d => length (depth d)) (processed_pings f) /\
  ping_times D = map transmit_time (processed_pings f) /\
  length (ping_starts D) = length (processed_pings f) /\
  Forall (fun d => In (XYZ d) (datagrams f) /\
                   in_navigation (fst (navigation_track (fixes f)))
                                 (snd (navigation_track (fixes f))) d = true)
         (processed_pings f).
Proof.
  intros Hf HD.
  destruct (index_of_located_pings fs filename Hf HD) as (Hc & Ht & Hs).
  repeat (split; [assumption|]).
  apply Forall_forall. intros d Hd. now apply processed_pings_In.
Qed.

(** ** Skipped pings *)

Lemma process_record_counted ts_lat ts_lon x b :
  process_record ts_lat ts_lon x (counted b)
  = (b' <- process_record ts_lat ts_lon x b ;; Ok (counted b')).
Proof.
  destruct x as [d|c]; [|reflexivity]. cbn [process_record].
  unfold process_ping.
  destruct (getValueAt ts_lat _); [|reflexivity].
  destruct (getValueAt ts_lon _); [|reflexivity].
  destruct (np.ufunc2 _ _ _); cbn [bind]; [|reflexivity].
  destruct (beam_loop _ _ _ _ _ _ _ _) as [[lats lons]|e]; reflexivity.
Qed.

Lemma accumulate_counted ts_lat ts_lon todo : forall b,
  accumulate ts_lat ts_lon todo (counted b)
  = (b' <- accumulate ts_lat ts_lon todo b ;; Ok (counted b')).
Proof.
  induction todo as [|x rest IH]; intros b; [reflexivity|].
  cbn [accumulate]. rewrite process_record_counted.
  destruct (process_record ts_lat ts_lon x b); cbn [bind]; [apply IH | reflexivity].
Qed.

Lemma accumulate_app ts_lat ts_lon l1 l2 : forall b,
  accumulate ts_lat ts_lon (l1 ++ l2) b
  = (b1 <- accumulate ts_lat ts_lon l1 b ;; accumulate ts_lat ts_lon l2 b1).
Proof.
  induction l1 as [|x rest IH]; intros b; [reflexivity|].
  cbn [app accumulate].
  destruct (process_record ts_lat ts_lon x b); cbn [bind]; [apply IH | reflexivity].
Qed.

Lemma accumulate_skip ts_lat ts_lon pre d post b :
  in_navigation ts_lat ts_lon d = false ->
  accumulate ts_lat ts_lon (pre ++ XYZ d :: post) b
  = (b' <- accumulate ts_lat ts_lon (pre ++ post) b ;; Ok (counted b')).
Proof.
  intros Hn. rewrite !accumulate_app.
  destruct (accumulate ts_lat ts_lon pre b) as [b1|e]; cbn [bind]; [|reflexivity].
  cbn [accumulate process_record]. rewrite (process_ping_skip _ _ _ _ Hn).
  cbn [bind]. apply accumulate_counted.
Qed.

Lemma ending_skip (a : res buffers) D :
  (forall b, a = Ok b -> ping_count b = 0 -> flatten b = Raise ValueError) ->
  ending (b' <- a ;; Ok (counted b')) = Returned D <-> ending a = Returned D.
Proof.
  intros H0. destruct a as [b|e]; cbn [bind ending]; [|tauto].
  rewrite flatten_counted. cbn [counted ping_count Nat.eqb].
  destruct (ping_count b =? 0) eqn:Ez; [|tauto].
  apply Nat.eqb_eq in Ez. rewrite (H0 b eq_refl Ez).
  split; discriminate.
Qed.

(** C4. A depth datagram for which an interpolant has no value is skipped:
    its processing raises nothing and leaves every buffer as it was; the
    loop over a file holding it fills the buffers, or fails, exactly as
    over the file without it; a dataset is returned with it if and only if
    the same dataset is returned without it; and its timestamp is not in
    [ping_times]. *)
Theorem skipped_ping_contributes_nothing fs1 fs0 filename nav pre d post :
  let ts_lat := fst (navigation_track nav) in
  let ts_lon := snd (navigation_track nav) in
  in_navigation ts_lat ts_lon d = false ->
  fs1 filename = Some {| fixes := nav; datagrams := pre ++ XYZ d :: post |} ->
  fs0 filename = Some {| fixes := nav; datagrams := pre ++ post |} ->
  (forall b, process_ping ts_lat ts_lon d b = Ok (counted b)) /\
  (forall r1 r0 b,
     pending r1 = pre ++ XYZ d :: post -> pending r0 = pre ++ post ->
     fst (stream ts_lat ts_lon r1 b)
     = (b' <- fst (stream ts_lat ts_lon r0 b) ;; Ok (counted b'))) /\
  (forall D, fst (read_em122_wgs84 fs1 filename) = Returned D <->
             fst (read_em122_wgs84 fs0 filename) = Returned D) /\
  (forall D, fst (read_em122_wgs84 fs1 filename) = Returned D ->
             ~ In (transmit_time d) (ping_times D)).
Proof.
  intros ts_lat ts_lon Hn Hf1 Hf0.
  split; [intros b; now apply process_ping_skip|].
  split.
  { intros r1 r0 b H1 H0.
    destruct (stream_accumulate ts_lat ts_lon r1 b H1) as [-> _].
    destruct (stream_accumulate ts_lat ts_lon r0 b H0) as [-> _].
    now apply accumulate_skip. }
  split.
  - intros D. destruct nav as [|p0 nav'] eqn:En.
    + unfold read_em122_wgs84. rewrite Hf1, Hf0. cbn. split; discriminate.
    + rewrite (read_outcome fs1 filename Hf1), (read_outcome fs0 filename Hf0)
        by (cbn; discriminate).
      cbn [fixes datagrams]. fold ts_lat ts_lon.
      rewrite accumulate_skip by exact Hn. apply ending_skip.
      intros b Hb Hz. apply (no_ping_no_dataset _ _ _ Hb).
      destruct (accumulate_trace _ _ _ _ Hb) as (ps & Hps & ->).
      cbn in Hz. pose proof (located_le ts_lat ts_lon (pre ++ post)) as Hle.
      destruct (located ts_lat ts_lon (pre ++ post)); [reflexivity|].
      cbn in Hle. lia.
  - intros D HD Hin.
    destruct (index_of_located_pings fs1 filename Hf1 HD) as (_ & Ht & _).
    rewrite Ht in Hin. apply in_map_iff in Hin. destruct Hin as (d' & Heq & Hd').
    destruct (processed_pings_In _ _ Hd') as [_ Hn'].
    cbn [fixes] in Hn'. fold ts_lat ts_lon in Hn'.
    unfold in_navigation in Hn, Hn'. rewrite Heq in Hn'. congruence.
Qed.

(** ** Release of the reader *)

Lemma close_released (r : allreader) :
  closed (close r) = true /\ exists l, calls (close r) = l ++ [Close].
Proof. split; [reflexivity|]. exists (calls r). reflexivity. Qed.

(** C8, as the code has it. Whenever the call returns to its caller
    - [None] after empty navigation, [None] after the loop, or the
    dataset - the reader has been closed, and [close] is the last call
    made on it. *)
Theorem reader_closed_on_return fs filename o r :
  read_em122_wgs84 fs filename = (o, Some r) ->
  (forall e, o <> Raised e) ->
  closed r = true /\ exists l, calls r = l ++ [Close].
Proof.
  unfold read_em122_wgs84. intros H Hno.
  destruct (fs filename) as [f|]; [|discriminate].
  cbn [loadnavigation allreader_open source fst snd] in H.
  destruct (fixes f) as [|p0 nav].
  - injection H as <- <-. apply close_released.
  - destruct (navigation_track (p0 :: nav)) as [ts_lat ts_lon].
    destruct (stream ts_lat ts_lon _ no_buffers) as [[b|e] r1].
    + destruct (ping_count b =? 0); [|destruct (flatten b)];
        injection H as <- <-; apply close_released.
    + injection H as <- _. now contradiction (Hno e).
Qed.

(** ** Beams *)

(** Beam [i] of a processed ping, field by field. *)
Lemma produced_beam ts_lat ts_lon d p i :
  produced ts_lat ts_lon d p -> i < length (depth d) ->
  exists ref_lat ref_lon dx dy dz,
    getValueAt ts_lat (transmit_time d) = Some ref_lat /\
    getValueAt ts_lon (transmit_time d) = Some ref_lon /\
    nth_error (acrosstrackdistance d) i = Some dx /\
    nth_error (alongtrackdistance d) i = Some dy /\
    nth_error (depth d) i = Some dz /\
    nth_error (p_lon p) i
    = Some (fst (calculateGeographicalPositionFromBearingDxDy
                   ref_lon ref_lat (heading d) dx dy)) /\
    nth_error (p_lat p) i
    = Some (snd (calculateGeographicalPositionFromBearingDxDy
                   ref_lon ref_lat (heading d) dx dy)) /\
    nth_error (p_z p) i = Some dz /\
    nth_error (p_ang p) i = Some (degrees (arctan2 dx dz)).
Proof.
  intros (ref_lat & ref_lon & a & Hlat & Hlon & Ha & Hang & Hb & Hz & _) Hi.
  destruct (beam_loop_ok _ _ _ _ _ _ _ _ _ Hb)
    as (ta & to & Ela & Elo & _ & _ & Hj).
  cbn in Ela, Elo. destruct (Hj i Hi) as (dx & dy & Hx & Hy & Hlo & Hla).
  cbn in Hx, Hy.
  destruct (nth_error (depth d) i) as [dz|] eqn:Ez;
    [|apply nth_error_None in Ez; lia].
  exists ref_lat, ref_lon, dx, dy, dz.
  rewrite Ela, Elo, Hz, Hang, Ez.
  repeat (split; [assumption || reflexivity|]).
  apply map_nth_error. eapply ufunc2_at; eassumption.
Qed.

(** Where entry [i] of the [k]-th batch lands in a flat array, when every
    batch of that array has as many entries as its beam count. *)
Lemma flat_index (g : batch -> list F) ps k p i :
  (forall q, In q ps -> length (g q) = beam_count q) ->
  nth_error ps k = Some p -> i < beam_count p ->
  nth_error (concat (map g ps))
            (nth k (exclusive_prefix_sum 0 (map beam_count ps)) 0 + i)
  = nth_error (g p) i.
Proof.
  intros Hlen Hk Hi.
  assert (Hkl : k < length ps) by (apply nth_error_Some; congruence).
  rewrite exclusive_prefix_sum_nth by now rewrite length_map.
  rewrite <- (length_concat_firstn g beam_count ps Hlen k). cbn [Nat.add].
  apply nth_error_concat_at.
  - now apply map_nth_error.
  - rewrite Hlen; [assumption|]. eapply nth_error_In, Hk.
Qed.

Lemma Forall2_map_r {A B C : Type} (R : A -> B -> Prop) (Q : A -> C -> Prop)
    (g : B -> C) l1 l2 :
  (forall x y, R x y -> Q x (g y)) ->
  Forall2 R l1 l2 -> Forall2 Q l1 (map g l2).
Proof. intros HRQ. induction 1; cbn; constructor; auto. Qed.

(** C5, as the code has it. When the four per-beam lists of every depth
    datagram have one length, beam [i] of the [k]-th processed ping - in
    file order - occupies index [ping_starts[k] + i] of each of the five
    flat arrays. *)
Theorem flat_arrays_layout fs filename f D :
  fs filename = Some f ->
  Forall same_length (depth_datagrams (datagrams f)) ->
  fst (read_em122_wgs84 fs filename) = Returned D ->
  flat_layout f D.
Proof.
  intros Hf Hwf HD k d i Hk Hi.
  destruct (returned_trace fs filename Hf HD)
    as (ps & _ & Hps & H1 & H2 & H3 & H4 & H5 & _ & Hs & _).
  destruct (Forall2_nth_error_l Hps _ Hk) as (p & Hp & Hprod).
  assert (Hd : same_length d).
  { rewrite Forall_forall in Hwf. apply Hwf, depth_datagrams_In.
    apply processed_pings_In. eapply nth_error_In, Hk. }
  assert (Hall : forall q, In q ps ->
            length (p_lat q) = beam_count q /\ length (p_lon q) = beam_count q /\
            length (p_z q) = beam_count q /\ length (p_bs q) = beam_count q /\
            length (p_ang q) = beam_count q).
  { intros q Hq. destruct (Forall2_In_r _ Hps Hq) as (d' & Hd' & Hprod').
    destruct (produced_lengths Hprod') as (? & ? & ?).
    destruct (produced_lengths_same Hprod') as (? & ?); [|auto 6].
    rewrite Forall_forall in Hwf. apply Hwf, depth_datagrams_In.
    now apply processed_pings_In. }
  assert (Hc : beam_count p = length (depth d)).
  { destruct Hprod as (? & ? & ? & _ & _ & _ & _ & _ & _ & _ & Hc & _). exact Hc. }
  assert (Hbs : p_bs p = reflectivity d).
  { destruct Hprod as (? & ? & ? & _ & _ & _ & _ & _ & _ & Hbs & _). exact Hbs. }
  destruct (produced_beam Hprod Hi)
    as (ref_lat & ref_lon & dx & dy & dz & Hlat & Hlon & Hx & Hy & Hz
        & Hlo & Hla & Hpz & Hpa).
  destruct Hd as (_ & _ & Hr).
  destruct (nth_error (reflectivity d) i) as [refl|] eqn:Er;
    [|apply nth_error_None in Er; lia].
  unfold spec_beam, row. rewrite Hlat, Hlon, Hx, Hy, Hz, Er.
  rewrite H1, H2, H3, H4, H5, Hs.
  rewrite !flat_index with (p := p) (k := k)
    by (try (intros q Hq; apply Hall, Hq); try assumption; lia).
  rewrite Hla, Hlo, Hpz, Hpa, Hbs, Er.
  destruct (calculateGeographicalPositionFromBearingDxDy
              ref_lon ref_lat (heading d) dx dy) as [b_lon b_lat].
  eexists. split; reflexivity.
Qed.

(** C6. In a returned dataset the angle array is the concatenation, in
    file order, of one array per processed ping, in which the angle of
    beam [i] is [degrees (arctan2 across_i depth_i)]: computed from the
    across-track distance and the vertical depth. *)
Theorem beam_angle_from_depth fs filename f D :
  fs filename = Some f ->
  fst (read_em122_wgs84 fs filename) = Returned D ->
  exists angles,
    ang D = concat angles /\
    Forall2
      (fun d a =>
         forall i, i < length (depth d) ->
           exists dx dz,
             nth_error (acrosstrackdistance d) i = Some dx /\
             nth_error (depth d) i = Some dz /\
             nth_error a i = Some (degrees (arctan2 dx dz)))
      (processed_pings f) angles.
Proof.
  intros Hf HD.
  destruct (returned_trace fs filename Hf HD)
    as (ps & _ & Hps & _ & _ & _ & _ & H5 & _).
  exists (map p_ang ps). split; [assumption|].
  eapply Forall2_map_r; [|exact Hps].
  intros d p Hprod i Hi. cbn beta.
  destruct (produced_beam Hprod Hi)
    as (_ & _ & dx & _ & dz & _ & _ & Hx & _ & Hz & _ & _ & _ & Hpa).
  exists dx, dz. auto.
Qed.

(** C7. In a returned dataset, beam [i] of the [k]-th processed ping has,
    at index [ping_starts[k] + i] of [lon] and [lat], the two components
    of the geodetic primitive applied to the reference longitude and
    latitude interpolated at the ping's timestamp, the ping's heading,
    [dx] the across-track distance and [dy] the along-track distance of
    that beam. *)
Theorem beam_position_from_geodetic fs filename f D :
  fs filename = Some f ->
  fst (read_em122_wgs84 fs filename) = Returned D ->
  forall k d i,
    nth_error (processed_pings f) k = Some d ->
    i < length (depth d) ->
    exists ref_lat ref_lon dx dy,
      getValueAt (fst (navigation_track (fixes f))) (transmit_time d)
      = Some ref_lat /\
      getValueAt (snd (navigation_track (fixes f))) (transmit_time d)
      = Some ref_lon /\
      nth_error (acrosstrackdistance d) i = Some dx /\
      nth_error (alongtrackdistance d) i = Some dy /\
      (nth_error (lon D) (nth k (ping_starts D) 0 + i),
       nth_error (lat D) (nth k (ping_starts D) 0 + i))
      = (Some (fst (calculateGeographicalPositionFromBearingDxDy
                      ref_lon ref_lat (heading d) dx dy)),
         Some (snd (calculateGeographicalPositionFromBearingDxDy
                      ref_lon ref_lat (heading d) dx dy))).
Proof.
  intros Hf HD k d i Hk Hi.
  destruct (returned_trace fs filename Hf HD)
    as (ps & _ & Hps & H1 & H2 & _ & _ & _ & _ & Hs & _).
  destruct (Forall2_nth_error_l Hps _ Hk) as (p & Hp & Hprod).
  assert (Hall : forall q, In q ps ->
            length (p_lat q) = beam_count q /\ length (p_lon q) = beam_count q).
  { intros q Hq. destruct (Forall2_In_r _ Hps Hq) as (d' & _ & Hprod').
    destruct (produced_lengths Hprod') as (? & ? & ?). auto. }
  assert (Hc : beam_count p = length (depth d)).
  { destruct Hprod as (? & ? & ? & _ & _ & _ & _ & _ & _ & _ & Hc & _). exact Hc. }
  destruct (produced_beam Hprod Hi)
    as (ref_lat & ref_lon & dx & dy & dz & Hlat & Hlon & Hx & Hy & _
        & Hlo & Hla & _).
  exists ref_lat, ref_lon, dx, dy.
  repeat (split; [assumption|]).
  rewrite H1, H2, Hs.
  rewrite !flat_index with (p := p) (k := k)
    by (try (intros q Hq; apply Hall, Hq); try assumption; lia).
  now rewrite Hla, Hlo.
Qed.

End Theory.

(** * Further properties of [read_em122_wgs84] *)

Section Further.

Context {I : Imports}.

(** ** When a ping raises *)

Lemma beam_loop_runs ref_lon ref_lat hdg across along : forall n s la lo,
  s + n <= length across -> s + n <= length along ->
  exists out,
    beam_loop ref_lon ref_lat hdg across along (seq s n) la lo = Ok out.
Proof.
  induction n as [|n IH]; intros s la lo Hx Hy; cbn [seq beam_loop].
  - now eexists.
  - unfold np.getitem.
    destruct (nth_error across s) as [dx|] eqn:Ex;
      [|apply nth_error_None in Ex; lia].
    destruct (nth_error along s) as [dy|] eqn:Ey;
      [|apply nth_error_None in Ey; lia].
    cbn [bind].
    destruct (calculateGeographicalPositionFromBearingDxDy
                ref_lon ref_lat hdg dx dy) as [b_lon b_lat].
    apply IH; lia.
Qed.

Lemma beam_loop_raises ref_lon ref_lat hdg across along : forall n s la lo e,
  beam_loop ref_lon ref_lat hdg across along (seq s n) la lo = Raise e ->
  e = IndexError /\ (length across < s + n \/ length along < s + n).
Proof.
  induction n as [|n IH]; intros s la lo e H; cbn [seq beam_loop] in H.
  - discriminate.
  - unfold np.getitem in H.
    destruct (nth_error across s) as [dx|] eqn:Ex.
    + destruct (nth_error along s) as [dy|] eqn:Ey.
      * cbn [bind] in H.
        destruct (calculateGeographicalPositionFromBearingDxDy
                    ref_lon ref_lat hdg dx dy) as [b_lon b_lat].
        destruct (IH _ _ _ _ H) as [-> Hs]. split; [reflexivity | lia].
      * cbn [bind] in H. injection H as <-.
        apply nth_error_None in Ey. split; [reflexivity | lia].
    + cbn [bind] in H. injection H as <-.
      apply nth_error_None in Ex. split; [reflexivity | lia].
Qed.

Lemma ufunc2_raises (f : F -> F -> F) x1 x2 e :
  np.ufunc2 f x1 x2 = Raise e ->
  e = ValueError /\ length x1 <> length x2 /\ length x1 <> 1 /\ length x2 <> 1.
Proof.
  unfold np.ufunc2. destruct (length x1 =? length x2) eqn:El; [discriminate|].
  apply Nat.eqb_neq in El.
  destruct x1 as [|a1 [|a2 t1]]; destruct x2 as [|b1 [|b2 t2]];
    try discriminate; intros H; injection H as <-; cbn in *;
    repeat split; auto; lia.
Qed.

Lemma process_ping_raises ts_lat ts_lon d b e :
  process_ping ts_lat ts_lon d b = Raise e ->
  in_navigation ts_lat ts_lon d = true /\
  ((e = ValueError /\ no_broadcast d) \/ (e = IndexError /\ short_distances d)).
Proof.
  unfold process_ping, in_navigation. fold (transmit_time d).
  destruct (getValueAt ts_lat (transmit_time d)) as [ref_lat|]; [|discriminate].
  destruct (getValueAt ts_lon (transmit_time d)) as [ref_lon|]; [|discriminate].
  destruct (np.ufunc2 arctan2 (acrosstrackdistance d) (depth d)) as [a|e'] eqn:Ea;
    cbn [bind].
  - destruct (beam_loop ref_lon ref_lat (heading d) (acrosstrackdistance d)
                (alongtrackdistance d) (seq 0 (length (depth d))) [] [])
      as [[lats lons]|e'] eqn:Eb; cbn [bind]; [discriminate|].
    intros H; injection H as <-.
    destruct (beam_loop_raises _ _ _ _ _ _ _ _ _ Eb) as [-> Hs].
    split; [reflexivity|]. right. split; [reflexivity | exact Hs].
  - intros H; injection H as <-.
    destruct (ufunc2_raises _ _ _ Ea) as (-> & H1 & H2 & H3).
    split; [reflexivity|]. left. repeat split; assumption.
Qed.

Lemma process_ping_runs ts_lat ts_lon d b :
  distances_match d -> exists b', process_ping ts_lat ts_lon d b = Ok b'.
Proof.
  intros [Hx Hy]. unfold process_ping.
  destruct (getValueAt ts_lat _) as [ref_lat|]; [|now eexists].
  destruct (getValueAt ts_lon _) as [ref_lon|]; [|now eexists].
  unfold np.ufunc2. rewrite Hx, Nat.eqb_refl. cbn [bind].
  destruct (beam_loop_runs ref_lon ref_lat (heading d) (acrosstrackdistance d)
              (alongtrackdistance d) (length (depth d)) 0 [] [])
    as [[lats lons] ->]; [cbn; lia | cbn; lia |].
  cbn [bind]. now eexists.
Qed.

Lemma accumulate_raises ts_lat ts_lon todo : forall b e,
  accumulate ts_lat ts_lon todo b = Raise e ->
  exists d, In d (located ts_lat ts_lon todo) /\
    ((e = ValueError /\ no_broadcast d) \/ (e = IndexError /\ short_distances d)).
Proof.
  unfold located.
  induction todo as [|[d|c] rest IH]; intros b e H; cbn in H.
  - discriminate.
  - cbn [depth_datagrams filter].
    destruct (process_ping ts_lat ts_lon d b) as [b1|e1] eqn:Ep; cbn [bind] in H.
    + destruct (IH _ _ H) as (d' & Hd' & Hr). exists d'. split; [|exact Hr].
      destruct (in_navigation ts_lat ts_lon d); [now right | assumption].
    + injection H as <-. destruct (process_ping_raises _ _ _ _ Ep) as [Hn Hr].
      exists d. rewrite Hn. split; [now left | exact Hr].
  - cbn [bind] in H. now apply (IH _ _ H).
Qed.

Lemma accumulate_runs ts_lat ts_lon todo : forall b,
  Forall distances_match (located ts_lat ts_lon todo) ->
  exists b', accumulate ts_lat ts_lon todo b = Ok b'.
Proof.
  unfold located.
  induction todo as [|[d|c] rest IH]; intros b Hall; cbn [accumulate].
  - now eexists.
  - cbn [process_record]. cbn [depth_datagrams filter] in Hall.
    destruct (in_navigation ts_lat ts_lon d) eqn:En.
    + inversion Hall as [|? ? Hd Hrest]; subst.
      destruct (process_ping_runs ts_lat ts_lon b Hd) as [b1 ->].
      cbn [bind]. now apply IH.
    + rewrite (process_ping_skip _ _ _ _ En). cbn [bind]. now apply IH.
  - cbn [process_record bind]. now apply IH.
Qed.

(** X1. A file with navigation whose located pings have one across-track
    and one along-track distance per depth, and which has at least one
    located ping, yields a dataset. *)
Theorem dataset_is_returned fs filename f :
  fs filename = Some f ->
  fixes f <> [] ->
  processed_pings f <> [] ->
  Forall distances_match (processed_pings f) ->
  exists D, fst (read_em122_wgs84 fs filename) = Returned D.
Proof.
  intros Hf Hn Hp Hall. rewrite (read_outcome fs filename Hf Hn).
  unfold processed_pings in Hp, Hall.
  destruct (accumulate_runs _ _ _ no_buffers Hall) as [b Hb]. rewrite Hb.
  destruct (accumulate_trace _ _ _ _ Hb) as (ps & Hps & ->).
  pose proof (located_le (fst (navigation_track (fixes f)))
                (snd (navigation_track (fixes f))) (datagrams f)) as Hle.
  destruct Hps as [|d p ds ps' Hd Hrest]; [congruence|]. cbn in Hle.
  destruct (length (depth_datagrams (datagrams f))) as [|n] eqn:En; [lia|].
  cbn. eexists. reflexivity.
Qed.

(** X2. The only exceptions that leave the call are these. [ValueError]:
    the file has depth datagrams and none is located, or a located
    datagram has across-track and depth lists that do not broadcast.
    [IndexError]: a located datagram has fewer across-track or
    along-track distances than depths. *)
Theorem exceptions_are_catalogued fs filename f e :
  fs filename = Some f ->
  fst (read_em122_wgs84 fs filename) = Raised e ->
  (e = ValueError /\ processed_pings f = [] /\
   depth_datagrams (datagrams f) <> []) \/
  (exists d, In d (processed_pings f) /\
     ((e = ValueError /\ no_broadcast d) \/
      (e = IndexError /\ short_distances d))).
Proof.
  intros Hf He.
  destruct (fixes f) as [|p0 nav] eqn:En.
  { unfold read_em122_wgs84 in He. rewrite Hf in He. cbn in He.
    rewrite En in He. discriminate. }
  rewrite (read_outcome fs filename Hf) in He by congruence.
  unfold processed_pings.
  set (ts_lat := fst (navigation_track (fixes f))) in *.
  set (ts_lon := snd (navigation_track (fixes f))) in *.
  destruct (accumulate ts_lat ts_lon (datagrams f) no_buffers) as [b|e'] eqn:Ea;
    cbn [ending] in He.
  - left. destruct (accumulate_trace _ _ _ _ Ea) as (ps & Hps & ->).
    cbn [extended ping_count] in He. rewrite Nat.add_0_r in He.
    destruct (length (depth_datagrams (datagrams f)) =? 0) eqn:Ez;
      [discriminate|].
    apply Nat.eqb_neq in Ez.
    destruct ps as [|p ps]; [|discriminate He].
    cbn in He. injection He as <-. inversion Hps.
    split; [reflexivity|]. split; [reflexivity|].
    intros Hnone. now rewrite Hnone in Ez.
  - injection He as <-. right. now apply (accumulate_raises _ _ _ _ Ea).
Qed.

(** ** What the result depends on *)



(** ** The reader after the second pass *)


(** ** Values and offsets, without any assumption on the datagrams *)

Lemma produced_fields ts_lat ts_lon ds ps :
  Forall2 (produced ts_lat ts_lon) ds ps ->
  map p_z ps = map depth ds /\ map p_bs ps = map reflectivity ds.
Proof.
  induction 1 as [|d p ds ps Hp _ [IH1 IH2]]; [split; reflexivity|].
  destruct Hp as (? & ? & ? & _ & _ & _ & _ & _ & Hz & Hb & _).
  cbn. rewrite Hz, Hb, IH1, IH2. split; reflexivity.
Qed.

(** X5. The depth and backscatter arrays of a returned dataset are the
    depth and reflectivity lists of the located datagrams, one after the
    other in file order, value for value. *)
Theorem depth_and_backscatter_pass_through fs filename f D :
  fs filename = Some f ->
  fst (read_em122_wgs84 fs filename) = Returned D ->
  z D = concat (map depth (processed_pings f)) /\
  bs D = concat (map reflectivity (processed_pings f)).
Proof.
  intros Hf HD.
  destruct (returned_trace fs filename Hf HD)
    as (ps & _ & Hps & _ & _ & H3 & H4 & _).
  destruct (produced_fields Hps) as [Hz Hb].
  now rewrite H3, H4, Hz, Hb.
Qed.

Lemma list_sum_firstn_le counts : forall k,
  list_sum (firstn k counts) <= list_sum counts.
Proof.
  induction counts as [|c rest IH]; intros [|k]; simpl; try lia.
  specialize (IH k). lia.
Qed.

(** X6. Whatever the datagrams hold, [lat], [lon] and [z] of a returned
    dataset have [sum(ping_counts)] entries, [ping_starts[k]] is the sum
    of the counts before [k], and the slice of ping [k], from
    [ping_starts[k]] for [ping_counts[k]] entries, lies inside them. *)
Theorem ping_slices_in_range fs filename f D :
  fs filename = Some f ->
  fst (read_em122_wgs84 fs filename) = Returned D ->
  length (lat D) = list_sum (ping_counts D) /\
  length (lon D) = list_sum (ping_counts D) /\
  length (z D) = list_sum (ping_counts D) /\
  forall k, k < length (ping_counts D) ->
    nth k (ping_starts D) 0 = list_sum (firstn k (ping_counts D)) /\
    nth k (ping_starts D) 0 + nth k (ping_counts D) 0 <= length (z D).
Proof.
  intros Hf HD.
  destruct (returned_trace fs filename Hf HD)
    as (ps & _ & Hps & H1 & H2 & H3 & _ & _ & Hc & Hs & _).
  assert (Hall : forall p, In p ps ->
            length (p_lat p) = beam_count p /\ length (p_lon p) = beam_count p /\
            length (p_z p) = beam_count p).
  { intros p Hp. destruct (Forall2_In_r _ Hps Hp) as (d & _ & Hprod).
    exact (produced_lengths Hprod). }
  assert (Hz : length (z D) = list_sum (ping_counts D)).
  { rewrite H3, Hc. apply length_concat_map. intros p Hp. apply Hall, Hp. }
  split; [rewrite H1, Hc; apply length_concat_map; intros p Hp; apply Hall, Hp|].
  split; [rewrite H2, Hc; apply length_concat_map; intros p Hp; apply Hall, Hp|].
  split; [exact Hz|].
  intros k Hk. rewrite Hs, <- Hc, exclusive_prefix_sum_nth by exact Hk.
  split; [reflexivity|]. rewrite Hz. cbn [Nat.add].
  rewrite <- list_sum_firstn_succ by exact Hk. apply list_sum_firstn_le.
Qed.

(** ** The three silent endings *)

(** X7. Each of the three [return None] tells the truth: the first is
    taken exactly when the path is not a file, the second exactly when the
    file has no position fix, the third exactly when the file has fixes
    and no depth datagram. *)
Theorem diagnostics_are_exact fs filename :
  (fst (read_em122_wgs84 fs filename) = NoDataset FileNotFound
   <-> fs filename = None) /\
  (fst (read_em122_wgs84 fs filename) = NoDataset EmptyNavigationError
   <-> exists f, fs filename = Some f /\ fixes f = []) /\
  (fst (read_em122_wgs84 fs filename) = NoDataset NoValidDataError
   <-> exists f, fs filename = Some f /\ fixes f <> [] /\
                 depth_datagrams (datagrams f) = []).
Proof.
  destruct (fs filename) as [f|] eqn:Hf.
  - destruct (fixes f) as [|p0 nav] eqn:En.
    + assert (Hr : fst (read_em122_wgs84 fs filename)
                   = NoDataset EmptyNavigationError).
      { unfold read_em122_wgs84. rewrite Hf. cbn. rewrite En. reflexivity. }
      rewrite Hr. split; [split; discriminate|]. split.
      * split; [intros _; now exists f | reflexivity].
      * split; [discriminate|]. intros (f' & Hf' & Hn & _).
        injection Hf' as <-. congruence.
    + assert (Hn : fixes f <> []) by congruence.
      rewrite (read_outcome fs filename Hf Hn).
      set (ts_lat := fst (navigation_track (fixes f))).
      set (ts_lon := snd (navigation_track (fixes f))).
      assert (Hnone : depth_datagrams (datagrams f) = [] ->
                ending (accumulate ts_lat ts_lon (datagrams f) no_buffers)
                = NoDataset NoValidDataError).
      { intros Hx.
        rewrite accumulate_all_skipped by (unfold located; now rewrite Hx).
        rewrite Hx. reflexivity. }
      assert (Hsome : forall why,
                ending (accumulate ts_lat ts_lon (datagrams f) no_buffers)
                = NoDataset why ->
                why = NoValidDataError /\ depth_datagrams (datagrams f) = []).
      { intros why He.
        destruct (accumulate ts_lat ts_lon (datagrams f) no_buffers)
          as [b|e] eqn:Ea; cbn [ending] in He; [|discriminate].
        destruct (accumulate_trace _ _ _ _ Ea) as (ps & _ & ->).
        cbn [extended ping_count] in He. rewrite Nat.add_0_r in He.
        destruct (length (depth_datagrams (datagrams f)) =? 0) eqn:Ez.
        - injection He as <-. apply Nat.eqb_eq in Ez.
          split; [reflexivity|]. now apply length_zero_iff_nil.
        - destruct (flatten _); discriminate. }
      split; [split; [intros He; now destruct (Hsome _ He) | discriminate]|].
      split.
      * split; [intros He; now destruct (Hsome _ He)|].
        intros (f' & Hf' & Hn'). injection Hf' as <-. congruence.
      * split.
        -- intros He. destruct (Hsome _ He) as [_ Hx]. now exists f.
        -- intros (f' & Hf' & _ & Hx). injection Hf' as <-. now apply Hnone.
  - assert (Hr : fst (read_em122_wgs84 fs filename) = NoDataset FileNotFound).
    { unfold read_em122_wgs84. now rewrite Hf. }
    rewrite Hr. split; [tauto|].
    split; (split; [discriminate|]); intros (f & Hf' & _); discriminate.
Qed.

(** X8. After the second pass the counter [ping_count], the one the
    progress lines show, is the number of depth datagrams of the file,
    skipped pings included, while the index lists one entry per located
    ping: the index is never longer than the counter says. *)
Theorem ping_count_includes_skipped ts_lat ts_lon r b :
  fst (stream ts_lat ts_lon r no_buffers) = Ok b ->
  ping_count b = length (depth_datagrams (pending r)) /\
  length (list_beam_counts b) = length (located ts_lat ts_lon (pending r)) /\
  length (list_ping_times b) = length (located ts_lat ts_lon (pending r)) /\
  length (list_beam_counts b) <= ping_count b.
Proof.
  intros H.
  destruct (stream_accumulate ts_lat ts_lon r no_buffers eq_refl) as [Ha _].
  rewrite Ha in H.
  destruct (accumulate_trace _ _ _ _ H) as (ps & Hps & ->).
  apply Forall2_length in Hps.
  pose proof (located_le ts_lat ts_lon (pending r)) as Hle.
  cbn [extended ping_count list_beam_counts list_ping_times no_buffers app].
  rewrite !length_map, Nat.add_0_r. repeat split; lia.
Qed.

(** ** Files in two parts *)

Lemma join_assoc b1 b2 b3 : join b1 (join b2 b3) = join (join b1 b2) b3.
Proof. unfold join; cbn. rewrite !app_assoc. f_equal. lia. Qed.

Lemma join_none b : join b no_buffers = b.
Proof. destruct b. unfold join; cbn. now rewrite !app_nil_r. Qed.

Lemma process_record_frame ts_lat ts_lon x b :
  process_record ts_lat ts_lon x b
  = (b1 <- process_record ts_lat ts_lon x no_buffers ;; Ok (join b b1)).
Proof.
  destruct x as [d|c]; cbn [process_record bind]; [|now rewrite join_none].
  unfold process_ping.
  destruct (getValueAt ts_lat _) as [ref_lat|];
    [destruct (getValueAt ts_lon _) as [ref_lon|]|].
  - destruct (np.ufunc2 _ _ _); cbn [bind]; [|reflexivity].
    destruct (beam_loop _ _ _ _ _ _ _ _) as [[lats lons]|e]; reflexivity.
  - cbn [bind]. destruct b. unfold join, counted; cbn.
    now rewrite !app_nil_r.
  - cbn [bind]. destruct b. unfold join, counted; cbn.
    now rewrite !app_nil_r.
Qed.

(** The loop started on filled buffers appends what it would have
    collected from empty ones. *)
Lemma accumulate_frame ts_lat ts_lon todo : forall b,
  accumulate ts_lat ts_lon todo b
  = (b1 <- accumulate ts_lat ts_lon todo no_buffers ;; Ok (join b b1)).
Proof.
  induction todo as [|x rest IH]; intros b; cbn [accumulate bind].
  - now rewrite join_none.
  - rewrite (process_record_frame ts_lat ts_lon x b).
    destruct (process_record ts_lat ts_lon x no_buffers) as [bx|e];
      cbn [bind]; [|reflexivity].
    rewrite (IH (join b bx)), (IH bx).
    destruct (accumulate ts_lat ts_lon rest no_buffers) as [b2|e];
      cbn [bind]; [|reflexivity].
    now rewrite join_assoc.
Qed.

Lemma exclusive_prefix_sum_app c1 : forall a c2,
  exclusive_prefix_sum a (c1 ++ c2)
  = exclusive_prefix_sum a c1 ++ exclusive_prefix_sum (a + list_sum c1) c2.
Proof.
  induction c1 as [|c rest IH]; intros a c2; simpl.
  - now rewrite Nat.add_0_r.
  - rewrite IH. do 3 f_equal. lia.
Qed.

Lemma exclusive_prefix_sum_shift c : forall a,
  exclusive_prefix_sum a c = map (Nat.add a) (exclusive_prefix_sum 0 c).
Proof.
  induction c as [|x rest IH]; intros a; simpl; [reflexivity|].
  rewrite Nat.add_0_r. f_equal.
  rewrite (IH (a + x)), (IH x), map_map.
  apply map_ext. intros y. lia.
Qed.

(** X9. A file cut in two parts: when the call returns a dataset for each
    part under the same navigation, it returns for the whole file the
    two datasets one after the other, the offsets of the second moved by
    the number of beams of the first. *)
Theorem dataset_of_two_parts fs fs1 fs2 filename nav l1 l2 D1 D2 :
  fs filename = Some {| fixes := nav; datagrams := l1 ++ l2 |} ->
  fs1 filename = Some {| fixes := nav; datagrams := l1 |} ->
  fs2 filename = Some {| fixes := nav; datagrams := l2 |} ->
  fst (read_em122_wgs84 fs1 filename) = Returned D1 ->
  fst (read_em122_wgs84 fs2 filename) = Returned D2 ->
  fst (read_em122_wgs84 fs filename) = Returned (dataset_app D1 D2).
Proof.
  intros Hf Hf1 Hf2 HD1 HD2.
  assert (Hn : nav <> []).
  { intros ->. unfold read_em122_wgs84 in HD1. rewrite Hf1 in HD1.
    discriminate. }
  rewrite (read_outcome fs1 filename Hf1) in HD1 by exact Hn.
  rewrite (read_outcome fs2 filename Hf2) in HD2 by exact Hn.
  rewrite (read_outcome fs filename Hf) by exact Hn.
  cbn [fixes datagrams] in *.
  set (ts_lat := fst (navigation_track nav)) in *.
  set (ts_lon := snd (navigation_track nav)) in *.
  rewrite accumulate_app.
  destruct (accumulate ts_lat ts_lon l1 no_buffers) as [b1|e] eqn:E1;
    cbn [ending bind] in *; [|discriminate].
  rewrite (accumulate_frame ts_lat ts_lon l2 b1).
  destruct (accumulate ts_lat ts_lon l2 no_buffers) as [b2|e] eqn:E2;
    cbn [ending bind] in *; [|discriminate].
  destruct (ping_count b1 =? 0) eqn:Ez1; [discriminate|].
  destruct (ping_count b2 =? 0) eqn:Ez2; [discriminate|].
  destruct (flatten b1) as [D1'|e] eqn:F1; [|discriminate].
  destruct (flatten b2) as [D2'|e] eqn:F2; [|discriminate].
  injection HD1 as ->. injection HD2 as ->.
  apply Nat.eqb_neq in Ez1.
  replace (ping_count (join b1 b2) =? 0) with false
    by (symmetry; apply Nat.eqb_neq; cbn; lia).
  destruct (accumulate_trace _ _ _ _ E1) as (ps1 & Hps1 & ->).
  destruct (accumulate_trace _ _ _ _ E2) as (ps2 & Hps2 & ->).
  destruct (flatten_ok _ F1) as (Hne1 & A1 & A2 & A3 & A4 & A5 & A6 & A7 & A8).
  destruct (flatten_ok _ F2) as (Hne2 & B1 & B2 & B3 & B4 & B5 & B6 & B7 & B8).
  cbn in Hne1, A1, A2, A3, A4, A5, A6, A7, A8, Hne2, B1, B2, B3, B4, B5, B6, B7, B8.
  assert (Hlen : length (z D1) = list_sum (map beam_count ps1)).
  { rewrite A3. apply length_concat_map. intros p Hp.
    destruct (Forall2_In_r _ Hps1 Hp) as (d & _ & Hprod).
    apply (produced_lengths Hprod). }
  destruct ps1 as [|p1 ps1]; [now contradiction Hne1|].
  destruct ps2 as [|p2 ps2]; [now contradiction Hne2|].
  unfold flatten, join, extended, np.concatenate, dataset_app.
  cbn [list_lat list_lon list_z list_bs list_ang list_beam_counts
       list_ping_times no_buffers app map bind].
  rewrite A1, A2, A3, A4, A5, A6, A7, A8, B1, B2, B3, B4, B5, B6, B7, B8.
  rewrite A3 in Hlen.
  do 2 f_equal.
  1-5: cbn [map]; change (?x :: ?l ++ ?y :: ?m) with ((x :: l) ++ y :: m);
       now rewrite concat_app.
  unfold np.cumsum.
  cbn [concat]. rewrite !app_nil_r.
  change (beam_count p1 :: map beam_count ps1 ++ beam_count p2 :: map beam_count ps2)
    with (map beam_count (p1 :: ps1) ++ map beam_count (p2 :: ps2)).
  change (np.cumsum_from 0 (beam_count p1 :: map beam_count ps1))
    with (np.cumsum_from 0 (map beam_count (p1 :: ps1))).
  change (np.cumsum_from 0 (beam_count p2 :: map beam_count ps2))
    with (np.cumsum_from 0 (map beam_count (p2 :: ps2))).
  rewrite !starts_exclusive by (cbn; discriminate).
  change ([0] ++ ?x) with (0 :: x).
  rewrite starts_exclusive by (cbn; discriminate).
  rewrite exclusive_prefix_sum_app, Hlen. f_equal.
  apply exclusive_prefix_sum_shift.
Qed.

End Further.

(** * The scripts *)

Section ScriptsTheory.

Context {I : Imports} {S : Statistics}.

Lemma reduce_empty (f : F -> F -> F) : ndarray.reduce f [] = Raise ValueError.
Proof. reflexivity. Qed.

Lemma reduce_runs (f : F -> F -> F) a :
  0 < length a -> exists v, ndarray.reduce f a = Ok v.
Proof. destruct a; cbn; [lia|]. intros _. now eexists. Qed.

Lemma reduce_raises (f : F -> F -> F) a e :
  ndarray.reduce f a = Raise e -> e = ValueError /\ a = [].
Proof. destruct a; cbn; [|discriminate]. intros H; injection H as <-. auto. Qed.

(** A processed ping has at least one angle per beam. *)
Lemma produced_ang_length ts_lat ts_lon d p :
  produced ts_lat ts_lon d p -> beam_count p <= length (p_ang p).
Proof.
  intros (ref_lat & ref_lon & a & _ & _ & Ha & Hang & Hb & _ & _ & Hc & _).
  rewrite Hang, Hc, length_map.
  destruct (beam_loop_ok _ _ _ _ _ _ _ _ _ Hb) as (ta & to & _ & _ & _ & _ & Hj).
  assert (Hle : length (depth d) <= length (acrosstrackdistance d)).
  { destruct (Nat.eq_dec (length (depth d)) 0) as [E0|E0]; [lia|].
    destruct (Hj (length (depth d) - 1) ltac:(lia)) as (dx & _ & Hx & _).
    cbn in Hx.
    assert (length (depth d) - 1 < length (acrosstrackdistance d))
      by (apply nth_error_Some; congruence).
    lia. }
  unfold np.ufunc2 in Ha.
  destruct (length (acrosstrackdistance d) =? length (depth d)) eqn:El.
  - apply Nat.eqb_eq in El. injection Ha as <-.
    rewrite length_map, length_combine. lia.
  - destruct (acrosstrackdistance d) as [|a1 [|a2 t1]].
    + destruct (depth d); [discriminate El | cbn in Hle; lia].
    + injection Ha as <-. now rewrite length_map.
    + destruct (depth d) as [|z1 [|z2 t2]]; try discriminate.
      injection Ha as <-. simpl. lia.
Qed.

Lemma list_sum_le_concat {A B : Type} (g : A -> list B) (c : A -> nat)
    (ps : list A) :
  (forall p, In p ps -> c p <= length (g p)) ->
  list_sum (map c ps) <= length (concat (map g ps)).
Proof.
  induction ps as [|p ps IH]; intros Hle; simpl; [lia|].
  rewrite length_app. specialize (Hle p (or_introl eq_refl)) as Hp.
  assert (list_sum (map c ps) <= length (concat (map g ps)))
    by (apply IH; intros q Hq; apply Hle; now right).
  lia.
Qed.

(** X10. The [__main__] block of [read_em_122.py], when the call returns a
    dataset: with no beam at all in it, the first [min()] raises
    [ValueError]; with at least one beam, also when the datagrams are
    ragged, the four ranges are shown. *)
Theorem ranges_need_a_beam fs argv D :
  fst (read_em122_wgs84 fs (input_file argv)) = Returned D ->
  (list_sum (ping_counts D) = 0 ->
   read_em_122_main fs argv = Raise ValueError) /\
  (0 < list_sum (ping_counts D) ->
   exists shown,
     read_em_122_main fs argv = Ok (Some shown) /\ length shown = 4).
Proof.
  intros HD. unfold read_em_122_main. rewrite HD.
  destruct (fs (input_file argv)) as [f|] eqn:Hf;
    [|unfold read_em122_wgs84 in HD; rewrite Hf in HD; discriminate].
  destruct (returned_trace fs (input_file argv) Hf HD)
    as (ps & _ & Hps & H1 & H2 & H3 & _ & H5 & Hc & _).
  assert (Hall : forall p, In p ps ->
            length (p_lat p) = beam_count p /\ length (p_lon p) = beam_count p /\
            length (p_z p) = beam_count p /\ beam_count p <= length (p_ang p)).
  { intros p Hp. destruct (Forall2_In_r _ Hps Hp) as (d & _ & Hprod).
    destruct (produced_lengths Hprod) as (? & ? & ?).
    pose proof (produced_ang_length Hprod). auto. }
  assert (L1 : length (lat D) = list_sum (ping_counts D))
    by (rewrite H1, Hc; apply length_concat_map; intros p Hp; apply Hall, Hp).
  assert (L2 : length (lon D) = list_sum (ping_counts D))
    by (rewrite H2, Hc; apply length_concat_map; intros p Hp; apply Hall, Hp).
  assert (L3 : length (z D) = list_sum (ping_counts D))
    by (rewrite H3, Hc; apply length_concat_map; intros p Hp; apply Hall, Hp).
  assert (L5 : list_sum (ping_counts D) <= length (ang D))
    by (rewrite H5, Hc; apply list_sum_le_concat; intros p Hp; apply Hall, Hp).
  split.
  - intros Hz. rewrite Hz in L1. apply length_zero_iff_nil in L1.
    unfold ranges. rewrite L1. reflexivity.
  - intros Hpos. unfold ranges.
    destruct (lat D) as [|x1 l1]; [cbn in L1; lia|].
    destruct (lon D) as [|x2 l2]; [cbn in L2; lia|].
    destruct (z D) as [|x3 l3]; [cbn in L3; lia|].
    destruct (ang D) as [|x5 l5]; [cbn in L5; lia|].
    cbn. eexists. split; reflexivity.
Qed.

(** X11. [plot_backscatter.py] on a file for which the call returns a
    dataset: the statistics printed before the drawing raise
    [ValueError] exactly when no located datagram carries a reflectivity
    value; otherwise minimum, maximum and mean are shown. *)
Theorem plot_needs_backscatter fs f D :
  fs plot_input_file = Some f ->
  fst (read_em122_wgs84 fs plot_input_file) = Returned D ->
  (plot_backscatter_main fs = Raise ValueError
   <-> Forall (fun d => reflectivity d = []) (processed_pings f)) /\
  (plot_backscatter_main fs = Raise ValueError \/
   exists shown, plot_backscatter_main fs = Ok (Some shown)).
Proof.
  intros Hf HD. unfold plot_backscatter_main. rewrite HD.
  destruct (returned_trace fs plot_input_file Hf HD)
    as (ps & _ & Hps & _ & _ & _ & H4 & _).
  destruct (produced_fields Hps) as [_ Hb]. rewrite Hb in H4.
  assert (Hnil : bs D = [] <->
                 Forall (fun d => reflectivity d = []) (processed_pings f)).
  { rewrite H4, concat_nil_Forall, Forall_map. reflexivity. }
  unfold backscatter_statistics.
  destruct (bs D) as [|x l] eqn:Eb; cbn.
  - split; [|now left]. split; [intros _; now apply Hnil | reflexivity].
  - split; [|right; now eexists].
    split; [discriminate|]. intros Hall. apply Hnil in Hall. discriminate.
Qed.

End ScriptsTheory.

(** * The sample files *)

Import Sample.

Lemma two_pings_run :
  read_em122_wgs84 (disk two_pings) survey
  = (Returned two_pings_dataset, Some two_pings_reader).
Proof. vm_compute. reflexivity. Qed.

Lemma two_pings_same_length :
  Forall same_length (depth_datagrams (datagrams two_pings)).
Proof. repeat constructor. Qed.

(** C1 on [late_ping]: navigation is present, the only ping is outside its
    domain, and the call ends in [ValueError]. *)
Lemma all_pings_skipped_raises_late_ping :
  fixes late_ping <> [] /\
  depth_datagrams (datagrams late_ping) <> [] /\
  processed_pings late_ping = [] /\
  fst (read_em122_wgs84 (disk late_ping) survey) = Raised ValueError.
Proof.
  split; [discriminate|]. split; [discriminate|]. split; [reflexivity|].
  apply (@all_pings_skipped_raises imports (disk late_ping) survey late_ping);
    [reflexivity | discriminate | discriminate | reflexivity].
Defined.

(** C2 on [two_pings]. *)
Lemma dataset_shape_two_pings :
  Forall same_length (depth_datagrams (datagrams two_pings)) /\
  fst (read_em122_wgs84 (disk two_pings) survey) = Returned two_pings_dataset /\
  length (lat two_pings_dataset) = list_sum (ping_counts two_pings_dataset) /\
  nth_error (ping_starts two_pings_dataset) 0 = Some 0 /\
  nth 1 (ping_starts two_pings_dataset) 0
  = nth 0 (ping_starts two_pings_dataset) 0
    + nth 0 (ping_counts two_pings_dataset) 0.
Proof.
  destruct (@dataset_shape imports (disk two_pings) survey two_pings
              two_pings_dataset eq_refl two_pings_same_length
              (f_equal fst two_pings_run))
    as (H1 & _ & _ & _ & _ & _ & _ & H8 & H9).
  split; [exact two_pings_same_length|].
  split; [exact (f_equal fst two_pings_run)|].
  split; [exact H1|]. split; [exact H8|]. apply (H9 0). cbn. lia.
Defined.

(** C3 fails on [beamless_ping]: the dataset lists a ping with no beam. *)
Lemma beamless_ping_is_listed :
  ~ (forall fs filename D,
       fst (read_em122_wgs84 fs filename) = Returned D ->
       Forall (fun c => 0 < c) (ping_counts D)).
Proof.
  intros H.
  specialize (H (disk beamless_ping) survey
                {| lat := []; lon := []; z := []; bs := []; ang := [];
                   ping_counts := [0]; ping_starts := [0];
                   ping_times := [5%Z] |} eq_refl).
  inversion H as [|c l Hc _]; subst. cbn in Hc. lia.
Qed.

(** C3 as amended, on [two_pings]. *)
Lemma ping_index_two_pings :
  ping_counts two_pings_dataset
  = map (fun d => length (depth d)) (processed_pings two_pings) /\
  ping_times two_pings_dataset
  = map transmit_time (processed_pings two_pings).
Proof.
  destruct (@ping_index_lists_located_pings imports (disk two_pings) survey
              two_pings two_pings_dataset eq_refl (f_equal fst two_pings_run))
    as (H1 & H2 & _).
  split; assumption.
Defined.

(** C4 on [two_pings_and_straggler]: the straggler changes nothing. *)
Lemma straggler_contributes_nothing :
  in_navigation (fst (navigation_track track)) (snd (navigation_track track))
                straggler = false /\
  fst (read_em122_wgs84 (disk two_pings_and_straggler) survey)
  = Returned two_pings_dataset /\
  ~ In (transmit_time straggler) (ping_times two_pings_dataset).
Proof.
  destruct (@skipped_ping_contributes_nothing imports
              (disk two_pings_and_straggler) (disk two_pings) survey
              track (datagrams two_pings) straggler [] eq_refl eq_refl eq_refl)
    as (_ & _ & Hiff & Hnot).
  assert (HD : fst (read_em122_wgs84 (disk two_pings_and_straggler) survey)
               = Returned two_pings_dataset).
  { apply Hiff. exact (f_equal fst two_pings_run). }
  split; [reflexivity|]. split; [exact HD|]. exact (Hnot _ HD).
Defined.

(** C5 fails on [ragged_pings]: the backscatter and angle of the second
    ping's beam are not at [ping_starts[1]]. *)
Lemma ragged_pings_break_layout :
  ~ (forall fs filename f D,
       fs filename = Some f ->
       fst (read_em122_wgs84 fs filename) = Returned D ->
       flat_layout f D).
Proof.
  intros H.
  specialize (H (disk ragged_pings) survey ragged_pings
                {| lat := [12; 15]%Z; lon := [126; 140]%Z; z := [100; 200]%Z;
                   bs := [7; 8; 9; 4]%Z;
                   ang := [51300; 108300; 165300; 273600]%Z;
                   ping_counts := [1; 1]; ping_starts := [0; 1];
                   ping_times := [2; 5]%Z |} eq_refl eq_refl).
  destruct (H 1 (xyz 5 0 [5] [0] [200] [4])%Z 0 eq_refl) as (v & Hs & Hr).
  - cbn. lia.
  - vm_compute in Hs, Hr. congruence.
Qed.

(** C5 as amended, on [two_pings]: the third beam of the second ping. *)
Lemma flat_arrays_layout_two_pings :
  Forall same_length (depth_datagrams (datagrams two_pings)) /\
  row two_pings_dataset (3 + 2) = Some (22, 139, 92, -32, 165756)%Z.
Proof.
  split; [exact two_pings_same_length|].
  destruct (@flat_arrays_layout imports (disk two_pings) survey two_pings
              two_pings_dataset eq_refl two_pings_same_length
              (f_equal fst two_pings_run) 1
              (xyz 5 1 [1; 2; 3; 4; 5] [0; 0; 0; 0; 0] [90; 91; 92; 93; 94]
                   [-30; -31; -32; -33; -34])%Z 2 eq_refl)
    as (v & Hs & Hr).
  - cbn. lia.
  - vm_compute in Hs. injection Hs as <-. exact Hr.
Defined.

(** C6 on [two_pings]. *)
Lemma beam_angle_two_pings :
  exists angles,
    ang two_pings_dataset = concat angles /\ length angles = 2.
Proof.
  destruct (@beam_angle_from_depth imports (disk two_pings) survey two_pings
              two_pings_dataset eq_refl (f_equal fst two_pings_run))
    as (angles & Hc & Hall).
  exists angles. split; [exact Hc|].
  apply Forall2_length in Hall. rewrite <- Hall. reflexivity.
Defined.

(** C7 on [two_pings]: the second beam of the first ping, reference
    longitude 124 and latitude 12, heading 0, [dx = 2], [dy = 5]. *)
Lemma beam_position_two_pings :
  (nth_error (lon two_pings_dataset) 1, nth_error (lat two_pings_dataset) 1)
  = (Some (fst (calculateGeographicalPositionFromBearingDxDy 124 12 0 2 5)),
     Some (snd (calculateGeographicalPositionFromBearingDxDy 124 12 0 2 5)))%Z.
Proof.
  destruct (@beam_position_from_geodetic imports (disk two_pings) survey
              two_pings two_pings_dataset eq_refl (f_equal fst two_pings_run) 0
              (xyz 2 0 [1; 2; 3] [4; 5; 6] [100; 101; 102] [-20; -21; -22])%Z
              1 eq_refl)
    as (ref_lat & ref_lon & dx & dy & Hlat & Hlon & Hx & Hy & Hpos).
  - cbn. lia.
  - vm_compute in Hlat, Hlon, Hx, Hy.
    injection Hlat as <-. injection Hlon as <-.
    injection Hx as <-. injection Hy as <-. exact Hpos.
Defined.

(** C8 fails on [mismatched_ping]: the exception leaves the loop and the
    reader is still open. *)
Lemma mismatched_ping_leaves_reader_open :
  ~ (forall fs filename o r,
       read_em122_wgs84 fs filename = (o, Some r) -> closed r = true).
Proof.
  intros H.
  specialize (H (disk mismatched_ping) survey (Raised ValueError)
                {| source := mismatched_ping; pending := []; closed := false;
                   calls := [Loadnavigation; Rewind; Readdatagram] |} eq_refl).
  discriminate H.
Qed.

(** C8 as amended, on [two_pings]. *)
Lemma reader_closed_two_pings :
  read_em122_wgs84 (disk two_pings) survey
  = (Returned two_pings_dataset, Some two_pings_reader) /\
  closed two_pings_reader = true /\
  exists l, calls two_pings_reader = l ++ [Close].
Proof.
  split; [exact two_pings_run|].
  apply (@reader_closed_on_return imports (disk two_pings) survey
           (Returned two_pings_dataset) two_pings_reader two_pings_run).
  intros e. discriminate.
Defined.

(** C9 on [no_navigation]. *)
Lemma empty_navigation_no_navigation :
  fixes no_navigation = [] /\
  read_em122_wgs84 (disk no_navigation) survey
  = (NoDataset EmptyNavigationError,
     Some {| source := no_navigation; pending := datagrams no_navigation;
             closed := true; calls := [Loadnavigation; Close] |}).
Proof.
  split; [reflexivity|].
  apply (@empty_navigation_is_fatal imports (disk no_navigation) survey
           no_navigation); reflexivity.
Defined.

(** C10 on [two_pings]. *)
Lemma returned_dataset_two_pings :
  fst (read_em122_wgs84 (disk two_pings) survey) = Returned two_pings_dataset /\
  1 <= length (ping_counts two_pings_dataset) /\
  1 <= length (ping_starts two_pings_dataset) /\
  1 <= length (ping_times two_pings_dataset).
Proof.
  split; [exact (f_equal fst two_pings_run)|].
  apply (@returned_dataset_has_a_ping imports (disk two_pings) survey
           two_pings_dataset (f_equal fst two_pings_run)).
Defined.

(** X1 on [two_pings]. *)
Lemma dataset_is_returned_two_pings :
  processed_pings two_pings <> [] /\
  Forall distances_match (processed_pings two_pings) /\
  exists D, fst (read_em122_wgs84 (disk two_pings) survey) = Returned D.
Proof.
  assert (Hp : processed_pings two_pings <> []) by (vm_compute; discriminate).
  assert (Hall : Forall distances_match (processed_pings two_pings))
    by (repeat constructor).
  split; [exact Hp|]. split; [exact Hall|].
  apply (@dataset_is_returned imports (disk two_pings) survey two_pings
           eq_refl ltac:(discriminate) Hp Hall).
Defined.

(** X2 on [mismatched_ping]: [ValueError], from a located datagram whose
    two across-track distances do not broadcast against three depths. *)
Lemma exceptions_mismatched_ping :
  fst (read_em122_wgs84 (disk mismatched_ping) survey) = Raised ValueError /\
  ((ValueError = ValueError /\ processed_pings mismatched_ping = [] /\
    depth_datagrams (datagrams mismatched_ping) <> []) \/
   (exists d, In d (processed_pings mismatched_ping) /\
      ((ValueError = ValueError /\ no_broadcast d) \/
       (ValueError = IndexError /\ short_distances d)))).
Proof.
  split; [reflexivity|].
  apply (@exceptions_are_catalogued imports (disk mismatched_ping) survey
           mismatched_ping ValueError eq_refl eq_refl).
Defined.



(** X5 on [two_pings]. *)
Lemma pass_through_two_pings :
  z two_pings_dataset = concat (map depth (processed_pings two_pings)) /\
  bs two_pings_dataset = concat (map reflectivity (processed_pings two_pings)).
Proof.
  apply (@depth_and_backscatter_pass_through imports (disk two_pings) survey
           two_pings two_pings_dataset eq_refl (f_equal fst two_pings_run)).
Defined.

(** X6 on [two_pings]: the slice of the second ping. *)
Lemma ping_slices_two_pings :
  nth 1 (ping_starts two_pings_dataset) 0
  = list_sum (firstn 1 (ping_counts two_pings_dataset)) /\
  nth 1 (ping_starts two_pings_dataset) 0
  + nth 1 (ping_counts two_pings_dataset) 0 <= length (z two_pings_dataset).
Proof.
  destruct (@ping_slices_in_range imports (disk two_pings) survey two_pings
              two_pings_dataset eq_refl (f_equal fst two_pings_run))
    as (_ & _ & _ & Hk).
  apply (Hk 1). cbn. lia.
Defined.

(** X8 on [two_pings_and_straggler]: three depth datagrams seen, two
    pings listed. *)
Lemma ping_count_two_pings_and_straggler :
  exists b,
    fst (stream (fst (navigation_track track)) (snd (navigation_track track))
                (allreader_open two_pings_and_straggler) no_buffers) = Ok b /\
    ping_count b = 3 /\ length (list_beam_counts b) = 2.
Proof.
  destruct (fst (stream (fst (navigation_track track))
                        (snd (navigation_track track))
                        (allreader_open two_pings_and_straggler) no_buffers))
    as [b|e] eqn:E; [|vm_compute in E; discriminate].
  exists b. split; [reflexivity|].
  destruct (@ping_count_includes_skipped imports _ _ _ b E) as (H1 & H2 & _).
  split; [exact H1 | exact H2].
Defined.

(** X9 on [two_pings] cut in two. *)
Lemma dataset_of_two_parts_two_pings :
  fst (read_em122_wgs84 (disk two_pings) survey)
  = Returned (dataset_app first_part_dataset second_part_dataset).
Proof.
  apply (@dataset_of_two_parts imports (disk two_pings)
           (disk {| fixes := track; datagrams := first_part |})
           (disk {| fixes := track; datagrams := second_part |})
           survey track first_part second_part
           first_part_dataset second_part_dataset
           eq_refl eq_refl eq_refl eq_refl eq_refl).
Defined.

(** X10 on [two_pings], the file named on the command line. *)
Lemma ranges_two_pings :
  0 < list_sum (ping_counts two_pings_dataset) /\
  exists shown,
    read_em_122_main (disk two_pings) command_line = Ok (Some shown) /\
    length shown = 4.
Proof.
  split; [cbn; lia|].
  apply (@ranges_need_a_beam imports statistics (disk two_pings) command_line
           two_pings_dataset (f_equal fst two_pings_run)).
  cbn. lia.
Defined.

(** X11 on [beamless_ping]: a dataset is returned and the plot script
    stops on its statistics. *)
Lemma plot_beamless_ping :
  Forall (fun d => reflectivity d = []) (processed_pings beamless_ping) /\
  plot_backscatter_main (plot_disk beamless_ping) = Raise ValueError.
Proof.
  assert (Hall : Forall (fun d => reflectivity d = [])
                        (processed_pings beamless_ping))
    by (repeat constructor).
  split; [exact Hall|].
  apply (@plot_needs_backscatter imports statistics (plot_disk beamless_ping)
           beamless_ping beamless_dataset eq_refl eq_refl).
  exact Hall.
Defined.
